(** * term-notebook: the [Notebook] container of [src/notebook.py]

    A shallow embedding of the document core of the terminal notebook
    editor: path validation and loading ([load_notebook]), the cell
    sequence with its focus pointer ([add_cell], [action_delete_cell],
    [on_descendant_focus]), the run-all loop of [on_button_pressed] and the
    serialisation [to_nb] / [action_save].

    Python objects are modelled by value plus an identity: a widget is a
    class tag and an object number, the children of the cell container are
    a list in document order, and every method of [Notebook] is a function
    in a state-and-exception monad over the [Notebook] record, so that a
    handler that raises keeps the mutations it had already made. *)

From Stdlib Require Import String Ascii List ZArith Bool Lia Permutation.
Import ListNotations.
Open Scope string_scope.
Open Scope list_scope.
Set Warnings "-register-all".

(** ** JSON values, as [json.load] returns them *)

(** A parsed JSON document.  A Python [dict] keeps one value per key; it is
    an association list read by its first binding.  Numbers with a
    fractional part are never inspected by the notebook and are carried by
    their literal. *)
Inductive json : Type :=
| JNull
| JBool (b : bool)
| JInt (n : Z)
| JFloat (literal : string)
| JStr (s : string)
| JList (items : list json)
| JDict (entries : list (string * json)).

(** ** Exceptions *)

(** The first group is what the Python of [notebook.py] and the libraries it
    calls can raise.  [InvalidDocumentError] and [CorruptDocumentError]
    belong to the error taxonomy of the design document; no statement of
    [notebook.py] constructs them. *)
Inductive exn : Type :=
| KeyError (key : string)
| TypeError
| AttributeError
| MountError
| JSONDecodeError
| IsADirectoryError
| NotADirectoryError
| FileNotFoundError
| PermissionError
| UnicodeDecodeError
| RecursionError
| ValueError
| KernelError (msg : string)
| InvalidDocumentError
| CorruptDocumentError.

Inductive result (A : Type) : Type :=
| Ok (a : A)
| Raise (e : exn).
Arguments Ok {A} a.
Arguments Raise {A} e.

(** [d[key]] on a parsed value: a lookup on a dict, [TypeError] on anything
    else (a list or a string indexed by a string, a number, [None]). *)
Fixpoint dict_get (key : string) (entries : list (string * json)) : option json :=
  match entries with
  | [] => None
  | (k, v) :: rest => if String.eqb k key then Some v else dict_get key rest
  end.

Definition getitem (v : json) (key : string) : result json :=
  match v with
  | JDict entries =>
      match dict_get key entries with
      | Some x => Ok x
      | None => Raise (KeyError key)
      end
  | _ => Raise TypeError
  end.

(** [v == "literal"] for a string literal on the right. *)
Definition eq_str (v : json) (s : string) : bool :=
  match v with
  | JStr t => String.eqb t s
  | _ => false
  end.

(** [for x in v]: the elements of a list, the keys of a dict, the
    characters of a string; other values are not iterable. *)
Definition iter (v : json) : result (list json) :=
  match v with
  | JList items => Ok items
  | JDict entries => Ok (map (fun kv => JStr (fst kv)) entries)
  | JStr s => Ok (map (fun c => JStr (String c EmptyString)) (list_ascii_of_string s))
  | _ => Raise TypeError
  end.

(** ** [os.path.splitext] (posixpath)

    [genericpath._splitext p sep None extsep]: the extension starts at the
    last dot of the last path component, unless that component has only dots
    before it. *)

Fixpoint rfind_from (c : ascii) (p : string) (i last : Z) : Z :=
  match p with
  | EmptyString => last
  | String a rest => rfind_from c rest (i + 1) (if Ascii.eqb a c then i else last)
  end.

(** [p.rfind(c)]: the highest index of [c] in [p], or [-1]. *)
Definition rfind (c : ascii) (p : string) : Z := rfind_from c p 0 (-1).

(** [p[:n]] and [p[n:]] for [0 <= n]. *)
Definition slice_to (p : string) (n : Z) : string := substring 0 (Z.to_nat n) p.
Definition slice_from (p : string) (n : Z) : string :=
  substring (Z.to_nat n) (String.length p - Z.to_nat n) p.

(** The [while filenameIndex < dotIndex] loop: [true] when it returns from
    inside (a character that is not a dot was met), [false] when it runs
    out. *)
Fixpoint skip_leading_dots (p : string) (extsep : ascii) (filenameIndex : Z)
         (steps : nat) : bool :=
  match steps with
  | O => false
  | S steps' =>
      match String.get (Z.to_nat filenameIndex) p with
      | Some a =>
          if Ascii.eqb a extsep
          then skip_leading_dots p extsep (filenameIndex + 1) steps'
          else true
      | None => true
      end
  end.

Definition _splitext (p : string) (sep extsep : ascii) : string * string :=
  let sepIndex := rfind sep p in
  let dotIndex := rfind extsep p in
  if (dotIndex >? sepIndex)%Z then
    if skip_leading_dots p extsep (sepIndex + 1) (Z.to_nat (dotIndex - (sepIndex + 1)))
    then (slice_to p dotIndex, slice_from p dotIndex)
    else (p, "")
  else (p, "").

Definition splitext (p : string) : string * string := _splitext p "/"%char "."%char.

(** ** The file system seen by [os.path.exists] and [open] *)

(** A file that [open] and [json.load] read is [File]: with its parsed
    content, or with none when its text is no JSON.  A file that they refuse
    otherwise (a permission, bytes that are no UTF-8, a nesting too deep) is
    [Unreadable], with the exception they raise. *)
Inductive fsnode : Type :=
| Directory
| File (text : option json)
| Unreadable (e : exn).

Definition filesystem : Type := string -> option fsnode.

Definition exists_ (fs : filesystem) (p : string) : bool :=
  match fs p with Some _ => true | None => false end.

(** [os.path.isfile]. *)
Definition isfile (fs : filesystem) (p : string) : bool :=
  match fs p with
  | Some (File _) | Some (Unreadable _) => true
  | Some Directory | None => false
  end.

(** [with open(p, "r") as f: json.load(f)]; on an existing path. *)
Definition open_json_load (fs : filesystem) (p : string) : result json :=
  match fs p with
  | Some (File (Some content)) => Ok content
  | Some (File None) => Raise JSONDecodeError
  | Some (Unreadable e) => Raise e
  | Some Directory => Raise IsADirectoryError
  | None => Raise FileNotFoundError
  end.

(** ** Widgets and cells *)

(** The two classes [add_cell] is called with. *)
Inductive cell_type : Type := CodeCell | MarkdownCell.

(** The classes [on_descendant_focus] tells apart with [isinstance]; every
    other widget (the buttons, the rule, the containers) is [OtherWidget]. *)
Inductive wclass : Type :=
| Cell (t : cell_type)
| CodeArea
| FocusMarkdown
| TextArea
| Button
| OtherWidget.

(** A reference to a widget object: its class and its identity. *)
Record widget : Type := Widget { w_class : wclass; w_id : nat }.

(** The state a cell holds. *)
Inductive cell_state : Type :=
| Code (source : string) (execution_count : option Z) (outputs : list json)
| Markdown (source : string).

Definition kind (c : cell_state) : cell_type :=
  match c with
  | Code _ _ _ => CodeCell
  | Markdown _ => MarkdownCell
  end.

(** A cell widget mounted in the cell container. *)
Record cell_widget : Type := CellWidget { cw_id : nat; cw_state : cell_state }.

Definition ref (c : cell_widget) : widget := Widget (Cell (kind (cw_state c))) (cw_id c).

Definition is_cell (w : widget) : bool :=
  match w_class w with Cell _ => true | _ => false end.

Definition is_code (c : cell_widget) : bool :=
  match cw_state c with Code _ _ _ => true | Markdown _ => false end.

(** *** Cell records ([code_cell.py] and [markdown_cell.py]) *)

(** Modelled from the spec: the cells' own [to_nb], which is not in
    [notebook.py].  Per the interchange format every record carries a
    [cell_type] discriminator and [source]; a code record also carries
    [execution_count] and an ordered [outputs] list. *)
Definition cell_to_nb (c : cell_state) : json :=
  match c with
  | Code source execution_count outputs =>
      JDict [("cell_type", JStr "code");
             ("execution_count",
              match execution_count with Some n => JInt n | None => JNull end);
             ("outputs", JList outputs);
             ("source", JStr source)]
  | Markdown source =>
      JDict [("cell_type", JStr "markdown"); ("source", JStr source)]
  end.

Definition field (record : json) (key : string) : result json :=
  match getitem record key with
  | Ok v => Ok v
  | Raise _ => Raise CorruptDocumentError
  end.

(** Modelled from the spec: [CodeCell.from_nb], which is not in
    [notebook.py]: the cell is built from the [source], [execution_count]
    and [outputs] of its record; a record without a required field is
    rejected as corrupt. *)
Definition CodeCell_from_nb (record : json) : result cell_state :=
  match field record "source", field record "execution_count", field record "outputs" with
  | Ok (JStr source), Ok JNull, Ok (JList outputs) => Ok (Code source None outputs)
  | Ok (JStr source), Ok (JInt n), Ok (JList outputs) => Ok (Code source (Some n) outputs)
  | _, _, _ => Raise CorruptDocumentError
  end.

(** Modelled from the spec: [MarkdownCell.from_nb], which is not in
    [notebook.py]: a narrative cell holds the [source] of its record. *)
Definition MarkdownCell_from_nb (record : json) : result cell_state :=
  match field record "source" with
  | Ok (JStr source) => Ok (Markdown source)
  | _ => Raise CorruptDocumentError
  end.

(** Modelled from the spec: the constructors of [CodeCell] and
    [MarkdownCell], which are not in [notebook.py].  Called with no cell
    keyword, as every caller of [add_cell] does, they construct an empty
    cell of their kind. *)
Definition new_cell (t : cell_type) : cell_state :=
  match t with
  | CodeCell => Code "" None []
  | MarkdownCell => Markdown ""
  end.

(** ** Collaborators outside [notebook.py] *)

(** The kernel session ([notebook_kernel.py]), the [run_cell] method of a
    code cell, the widget tree around the cell container and the operating
    system are taken as an interface.  [run_cell] may change the kernel and
    the cell it runs on and then either returns ([None]) or raises.
    [parent] is the parent of a widget that is no child of the cell
    container: of an editor inside a cell, of a group, of the containers; a
    widget that hangs nowhere, as a removed cell does, has none.
    [refuses_write] is what [open(path, "w")] raises, if anything, for a
    path that is no directory: a directory on the way is missing or is a
    file, the permissions forbid. *)
Class Collaborators : Type := {
  kernel : Type;
  NotebookKernel : kernel;
  get_kernel_spec : kernel -> json;
  get_kernel_info : kernel -> json;
  get_language_info : kernel -> json;
  restart_kernel : kernel -> kernel;
  run_cell : kernel -> cell_state -> option exn * kernel * cell_state;
  parent : widget -> option widget;
  refuses_write : filesystem -> string -> option exn
}.

(** ** The [Notebook] object *)

(** Which of the composed children are displayed ([watch_valid_notebook]). *)
Record visibility : Type := {
  show_ButtonRow : bool;
  show_Rule : bool;
  show_VerticalScroll : bool;
  show_Label : bool
}.

Record Notebook `{Collaborators} : Type := {
  path : string;
  valid_notebook : bool;
  last_focused : option widget;
  notebook_kernel : kernel;
  _metadata : option (list (string * json));
  _nbformat : Z;
  _nbformat_minor : Z;
  children : list cell_widget;      (* [cell_container.children] *)
  display : visibility;
  next_id : nat                     (* identity of the next object created *)
}.

Section Methods.
Context `{Collaborators}.

(** *** Attribute assignment *)

Definition set_valid (v : bool) (self : Notebook) : Notebook :=
  {| path := path self; valid_notebook := v; last_focused := last_focused self;
     notebook_kernel := notebook_kernel self; _metadata := _metadata self;
     _nbformat := _nbformat self; _nbformat_minor := _nbformat_minor self;
     children := children self; display := display self; next_id := next_id self |}.

Definition set_last_focused (w : option widget) (self : Notebook) : Notebook :=
  {| path := path self; valid_notebook := valid_notebook self; last_focused := w;
     notebook_kernel := notebook_kernel self; _metadata := _metadata self;
     _nbformat := _nbformat self; _nbformat_minor := _nbformat_minor self;
     children := children self; display := display self; next_id := next_id self |}.

Definition set_kernel (k : kernel) (self : Notebook) : Notebook :=
  {| path := path self; valid_notebook := valid_notebook self;
     last_focused := last_focused self;
     notebook_kernel := k; _metadata := _metadata self;
     _nbformat := _nbformat self; _nbformat_minor := _nbformat_minor self;
     children := children self; display := display self; next_id := next_id self |}.

Definition set_children (l : list cell_widget) (self : Notebook) : Notebook :=
  {| path := path self; valid_notebook := valid_notebook self;
     last_focused := last_focused self;
     notebook_kernel := notebook_kernel self; _metadata := _metadata self;
     _nbformat := _nbformat self; _nbformat_minor := _nbformat_minor self;
     children := l; display := display self; next_id := next_id self |}.

Definition set_display (d : visibility) (self : Notebook) : Notebook :=
  {| path := path self; valid_notebook := valid_notebook self;
     last_focused := last_focused self;
     notebook_kernel := notebook_kernel self; _metadata := _metadata self;
     _nbformat := _nbformat self; _nbformat_minor := _nbformat_minor self;
     children := children self; display := d; next_id := next_id self |}.

Definition set_next_id (n : nat) (self : Notebook) : Notebook :=
  {| path := path self; valid_notebook := valid_notebook self;
     last_focused := last_focused self;
     notebook_kernel := notebook_kernel self; _metadata := _metadata self;
     _nbformat := _nbformat self; _nbformat_minor := _nbformat_minor self;
     children := children self; display := display self; next_id := n |}.

(** *** Methods run in a state-and-exception monad

    A method takes [self] and gives back either a value or the exception it
    raised, together with [self] as the method left it. *)
Definition M (A : Type) : Type := Notebook -> result A * Notebook.

Definition ret {A} (a : A) : M A := fun self => (Ok a, self).
Definition raise {A} (e : exn) : M A := fun self => (Raise e, self).
Definition bind {A B} (m : M A) (k : A -> M B) : M B :=
  fun self =>
    match m self with
    | (Ok a, self') => k a self'
    | (Raise e, self') => (Raise e, self')
    end.
Definition lift {A} (r : result A) : M A := fun self => (r, self).
Definition get {A} (f : Notebook -> A) : M A := fun self => (Ok (f self), self).
Definition modify (f : Notebook -> Notebook) : M unit := fun self => (Ok tt, f self).

End Methods.

Declare Scope py_scope.
Delimit Scope py_scope with py.
Notation "x <- m ;; k" := (bind m (fun x => k))
  (at level 61, m at next level, right associativity) : py_scope.
Notation "m ;; k" := (bind m (fun _ => k))
  (at level 61, right associativity) : py_scope.
Open Scope py_scope.

Section Notebook.
Context `{Collaborators}.

(** [Notebook.__init__], followed by the first run of the watcher of the
    reactive [valid_notebook = reactive(True)] when the widget is mounted. *)
Definition __init__ (path : string) : Notebook :=
  {| path := path; valid_notebook := true; last_focused := None;
     notebook_kernel := NotebookKernel; _metadata := None;
     _nbformat := 4; _nbformat_minor := 5;
     children := [];
     display := {| show_ButtonRow := true; show_Rule := true;
                   show_VerticalScroll := true; show_Label := false |};
     next_id := 0 |}.

(** [watch_valid_notebook]: the button row, the rule and the cell container
    are displayed when the notebook is valid, the label when it is not. *)
Definition watch_valid_notebook (is_valid : bool) : M unit :=
  modify (set_display {| show_ButtonRow := is_valid; show_Rule := is_valid;
                         show_VerticalScroll := is_valid;
                         show_Label := negb is_valid |}).

(** [self.valid_notebook = v]: a reactive attribute calls its watcher when
    the value changes. *)
Definition assign_valid_notebook (v : bool) : M unit :=
  old <- get valid_notebook ;;
  modify (set_valid v) ;;
  if Bool.eqb old v then ret tt else watch_valid_notebook v.

(** [on_descendant_focus]: a cell that takes the focus becomes
    [last_focused]; for an editor inside a cell it is [widget.parent.parent];
    buttons and everything else are ignored. *)
Definition on_descendant_focus (event_widget : widget) : M unit :=
  match w_class event_widget with
  | Cell _ => modify (set_last_focused (Some event_widget))
  | CodeArea | FocusMarkdown | TextArea =>
      match parent event_widget with
      | None => raise AttributeError
      | Some p => modify (set_last_focused (parent p))
      end
  | Button | OtherWidget => ret tt
  end.

(** *** The cell container *)

Definition class_eqb (a b : wclass) : bool :=
  match a, b with
  | Cell CodeCell, Cell CodeCell | Cell MarkdownCell, Cell MarkdownCell
  | CodeArea, CodeArea | FocusMarkdown, FocusMarkdown | TextArea, TextArea
  | Button, Button | OtherWidget, OtherWidget => true
  | _, _ => false
  end.

(** [a is b] on widget references. *)
Definition same_widget (a b : widget) : bool :=
  class_eqb (w_class a) (w_class b) && Nat.eqb (w_id a) (w_id b).

(** [spot.parent._nodes.index(spot)] in the cell container. *)
Fixpoint index (spot : widget) (nodes : list cell_widget) : option nat :=
  match nodes with
  | [] => None
  | c :: rest =>
      if same_widget (ref c) spot then Some O
      else match index spot rest with
           | Some i => Some (S i)
           | None => None
           end
  end.

Definition insert_at (i : nat) (w : cell_widget) (nodes : list cell_widget)
  : list cell_widget :=
  firstn i nodes ++ w :: skipn i nodes.

(** A spot that is no child of the cell container: [mount] takes the place
    from the spot's own parent, so the widget lands beside the spot, outside
    the cell container, whose children stay as they are; a spot without a
    parent has no place and [mount] raises [MountError]. *)
Definition mount_elsewhere (spot : widget) (nodes : list cell_widget)
  : result (list cell_widget) :=
  match parent spot with
  | Some _ => Ok nodes
  | None => Raise MountError
  end.

(** [cell_container.mount(widget, before=..., after=...)] of Textual: with no
    spot the widget is appended; with a spot among the children it is
    inserted at the index of the spot ([before]) or right behind it
    ([after]). *)
Definition mount (nodes : list cell_widget) (w : cell_widget)
           (before after : option widget) : result (list cell_widget) :=
  match before, after with
  | Some _, Some _ => Raise MountError
  | Some spot, None =>
      match index spot nodes with
      | Some i => Ok (insert_at i w nodes)
      | None => mount_elsewhere spot nodes
      end
  | None, Some spot =>
      match index spot nodes with
      | Some i => Ok (insert_at (S i) w nodes)
      | None => mount_elsewhere spot nodes
      end
  | None, None => Ok (nodes ++ [w])
  end.

(** [widget.remove()]: the widget leaves the children of its parent. *)
Definition remove (w : widget) (nodes : list cell_widget) : list cell_widget :=
  filter (fun c => negb (same_widget (ref c) w)) nodes.

(** A new widget object: the constructor gives it the next identity. *)
Definition construct (state : cell_state) : M cell_widget :=
  n <- get next_id ;;
  modify (set_next_id (S n)) ;;
  ret (CellWidget n state).

Definition cell_container_mount (w : cell_widget) (before after : option widget)
  : M unit :=
  nodes <- get children ;;
  nodes' <- lift (mount nodes w before after) ;;
  modify (set_children nodes').

(** *** [add_cell] *)

Inductive position : Type := before | after.

(** [kwargs = {position: self.last_focused}] passes the focused widget as
    the [before] or the [after] keyword of [mount]; the new widget becomes
    [last_focused] only when there was none (its [focus()] call is a request
    to the screen and changes no attribute of the notebook). *)
Definition add_cell (t : cell_type) (pos : position) : M widget :=
  anchor <- get last_focused ;;
  w <- construct (new_cell t) ;;
  match pos with
  | before => cell_container_mount w anchor None
  | after => cell_container_mount w None anchor
  end ;;
  focused <- get last_focused ;;
  match focused with
  | Some _ => ret tt
  | None => modify (set_last_focused (Some (ref w)))
  end ;;
  ret (ref w).

Definition action_add_cell_after : M unit := add_cell CodeCell after ;; ret tt.
Definition action_add_cell_before : M unit := add_cell CodeCell before ;; ret tt.

(** *** [action_delete_cell] *)

Definition action_delete_cell : M unit :=
  focused <- get last_focused ;;
  match focused with
  | Some w =>
      nodes <- get children ;;
      modify (set_children (remove w nodes)) ;;
      modify (set_last_focused None)
  | None => ret tt
  end.

(** *** [load_notebook] *)

(** The body of [for cell in content["cells"]]: a code record and a markdown
    record are turned into a cell and mounted at the end; a record of any
    other type falls through both tests. *)
Definition load_cell (cell : json) : M unit :=
  t <- lift (getitem cell "cell_type") ;;
  if eq_str t "code" then
    state <- lift (CodeCell_from_nb cell) ;;
    code_cell <- construct state ;;
    cell_container_mount code_cell None None
  else
    t' <- lift (getitem cell "cell_type") ;;
    if eq_str t' "markdown" then
      state <- lift (MarkdownCell_from_nb cell) ;;
      markdown_cell <- construct state ;;
      cell_container_mount markdown_cell None None
    else ret tt.

Fixpoint load_cells (cells : list json) : M unit :=
  match cells with
  | [] => ret tt
  | cell :: rest => load_cell cell ;; load_cells rest
  end.

Definition load_notebook (fs : filesystem) : M unit :=
  p <- get path ;;
  if String.eqb p "new_empty_terminal_notebook" then ret tt
  else if negb (exists_ fs p) then assign_valid_notebook false
  else if negb (String.eqb (snd (splitext p)) ".ipynb") then assign_valid_notebook false
  else
    content <- lift (open_json_load fs p) ;;
    cells <- lift (getitem content "cells") ;;
    items <- lift (iter cells) ;;
    load_cells items.

Definition on_mount (fs : filesystem) : M unit := load_notebook fs.

End Notebook.

Section Actions.
Context `{Collaborators}.

(** *** [to_nb] and [action_save] *)

Definition to_nb (self : Notebook) : json :=
  let kernel_spec := get_kernel_spec (notebook_kernel self) in
  let kernel_info := get_kernel_info (notebook_kernel self) in
  let language_info := get_language_info (notebook_kernel self) in
  let cells := map (fun cell => cell_to_nb (cw_state cell)) (children self) in
  JDict [("metadata", JDict [("kernel_info", kernel_info);
                             ("kernel_spec", kernel_spec);
                             ("language_info", language_info)]);
         ("nbformat", JInt (_nbformat self));
         ("nbformat_minor", JInt (_nbformat_minor self));
         ("cells", JList cells)].

(** [action_save_as] switches to the save-as screen; nothing of the
    notebook or of the file system changes here. *)
Definition action_save_as (fs : filesystem) : result filesystem := Ok fs.

(** [with open(p, "w") as f: json.dump(nb, f)]: a directory cannot be
    opened for writing; elsewhere the operating system decides, and when it
    lets the write through the path holds the record. *)
Definition open_json_dump (fs : filesystem) (p : string) (nb : json) : result filesystem :=
  match fs p with
  | Some Directory => Raise IsADirectoryError
  | _ =>
      match refuses_write fs p with
      | Some e => Raise e
      | None => Ok (fun q => if String.eqb q p then Some (File (Some nb)) else fs q)
      end
  end.

(** [action_save]: the file system after the call, or the exception of
    [open].  [json.dump] followed by [json.load] gives back the value it was
    given, so a file holds its parsed content. *)
Definition action_save (fs : filesystem) (self : Notebook) : result filesystem :=
  if String.eqb (path self) "new_empty_terminal_notebook" then action_save_as fs
  else
    let nb := to_nb self in
    open_json_dump fs (path self) nb.

(** *** Run all *)

(** What one pass of the run-all loop leaves: the exception that ended it,
    if any, the kernel, the children, and the identities of the cells whose
    [run_cell] was called, in call order (a ghost trace). *)
Record run_outcome : Type := {
  raised : option exn;
  kernel_after : kernel;
  children_after : list cell_widget;
  ran : list nat
}.

(** [for child in self.cell_container.children:
       if isinstance(child, CodeCell): await child.run_cell()] *)
Fixpoint run_children (k : kernel) (nodes : list cell_widget) : run_outcome :=
  match nodes with
  | [] => {| raised := None; kernel_after := k; children_after := []; ran := [] |}
  | child :: rest =>
      if is_code child then
        let '(r, k', state') := run_cell k (cw_state child) in
        let child' := CellWidget (cw_id child) state' in
        match r with
        | Some e =>
            {| raised := Some e; kernel_after := k';
               children_after := child' :: rest; ran := [cw_id child] |}
        | None =>
            let o := run_children k' rest in
            {| raised := raised o; kernel_after := kernel_after o;
               children_after := child' :: children_after o;
               ran := cw_id child :: ran o |}
        end
      else
        let o := run_children k rest in
        {| raised := raised o; kernel_after := kernel_after o;
           children_after := child :: children_after o; ran := ran o |}
  end.

Definition run_all : M unit :=
  nodes <- get children ;;
  k <- get notebook_kernel ;;
  let o := run_children k nodes in
  modify (set_kernel (kernel_after o)) ;;
  modify (set_children (children_after o)) ;;
  match raised o with
  | Some e => raise e
  | None => ret tt
  end.

(** [on_button_pressed], by the id of the button. *)
Definition on_button_pressed (button_id : string) : M unit :=
  if String.eqb button_id "add-code-cell" then add_cell CodeCell after ;; ret tt
  else if String.eqb button_id "add-markdown-cell" then add_cell MarkdownCell after ;; ret tt
  else if String.eqb button_id "restart-shell" then
    k <- get notebook_kernel ;; modify (set_kernel (restart_kernel k))
  else if String.eqb button_id "run-all" then run_all
  else ret tt.

(** *** The notebook under a sequence of events *)

Inductive event : Type :=
| Mount                                   (* [on_mount] *)
| DescendantFocus (w : widget)
| ButtonPressed (button_id : string)
| KeyA                                    (* binding [a] *)
| KeyB                                    (* binding [b] *)
| CtrlD                                   (* binding [ctrl+d] *)
| CtrlS                                   (* binding [ctrl+s] *)
| CtrlW.                                  (* binding [ctrl+w] *)

(** One handler run: the notebook and the file system it leaves, whether it
    returned or raised. *)
Definition handle (e : event) (world : filesystem * Notebook) : filesystem * Notebook :=
  let '(fs, self) := world in
  match e with
  | Mount => (fs, snd (on_mount fs self))
  | DescendantFocus w => (fs, snd (on_descendant_focus w self))
  | ButtonPressed b => (fs, snd (on_button_pressed b self))
  | KeyA => (fs, snd (action_add_cell_after self))
  | KeyB => (fs, snd (action_add_cell_before self))
  | CtrlD => (fs, snd (action_delete_cell self))
  | CtrlS => (match action_save fs self with Ok fs' => fs' | Raise _ => fs end, self)
  | CtrlW => (match action_save_as fs with Ok fs' => fs' | Raise _ => fs end, self)
  end.

Definition run_events (events : list event) (world : filesystem * Notebook)
  : filesystem * Notebook :=
  fold_left (fun w e => handle e w) events world.

End Actions.

(** ** What the properties are stated with *)

Section Observations.
Context `{Collaborators}.

(** [keeps f m]: the method [m] leaves the observation [f] of the notebook
    as it found it, whether it returns or raises. *)
Definition keeps {A B} (f : Notebook -> B) (m : M A) : Prop :=
  forall self, f (snd (m self)) = f self.

(** The focus pointer refers to a cell of the sequence or is empty. *)
Definition focus_in_sequence (self : Notebook) : Prop :=
  match last_focused self with
  | Some a => index a (children self) <> None
  | None => True
  end.

(** The focus pointer is empty or a cell. *)
Definition focus_is_cell (self : Notebook) : Prop :=
  match last_focused self with
  | Some w => is_cell w = true
  | None => True
  end.

(** The layout the focus handler relies on: two levels above an editor
    widget there is a cell (or nothing). *)
Definition editors_sit_in_cells : Prop :=
  forall w p g,
    (w_class w = CodeArea \/ w_class w = FocusMarkdown \/ w_class w = TextArea) ->
    parent w = Some p -> parent p = Some g -> is_cell g = true.

(** The format version of the notebook. *)
Definition format (self : Notebook) : Z * Z :=
  (_nbformat self, _nbformat_minor self).

(** What is displayed of an invalid notebook. *)
Definition hidden : visibility :=
  {| show_ButtonRow := false; show_Rule := false;
     show_VerticalScroll := false; show_Label := true |}.

End Observations.

(** ** Further observations *)

Section MoreObservations.
Context `{Collaborators}.

(** What [watch_valid_notebook] displays for a value of the flag. *)
Definition display_of (is_valid : bool) : visibility :=
  {| show_ButtonRow := is_valid; show_Rule := is_valid;
     show_VerticalScroll := is_valid; show_Label := negb is_valid |}.

(** The display agrees with the flag. *)
Definition display_matches (self : Notebook) : Prop :=
  display self = display_of (valid_notebook self).

(** The cells have pairwise distinct identities, all of them older than the
    next object. *)
Definition ids_fresh (self : Notebook) : Prop :=
  NoDup (map cw_id (children self)) /\
  Forall (fun c => cw_id c < next_id self) (children self).

End MoreObservations.

Section LoadObservations.
Context `{Collaborators}.

(** The class of cell that the loop of [load_notebook] builds for a record:
    none for a record that is neither [code] nor [markdown]. *)
Definition record_kind (cell : json) : option cell_type :=
  match getitem cell "cell_type" with
  | Ok t =>
      if eq_str t "code" then Some CodeCell
      else if eq_str t "markdown" then Some MarkdownCell
      else None
  | Raise _ => None
  end.

Fixpoint record_kinds (cells : list json) : list cell_type :=
  match cells with
  | [] => []
  | cell :: rest =>
      match record_kind cell with
      | Some t => t :: record_kinds rest
      | None => record_kinds rest
      end
  end.

(** The classes of the cells of the sequence, in order. *)
Definition kinds (self : Notebook) : list cell_type :=
  map (fun c => kind (cw_state c)) (children self).

End LoadObservations.

Section RunObservations.
Context `{Collaborators}.

(** The kernel after running one more code cell. *)
Definition kernel_step (k : kernel) (c : cell_widget) : kernel :=
  snd (fst (run_cell k (cw_state c))).

(** [run_cell] hands back a cell of the class it was called on. *)
Definition run_cell_keeps_kind : Prop :=
  forall k c, kind (snd (run_cell k c)) = kind c.

(** A focus event comes from the tree of the notebook: the cell that takes
    the focus, or the cell two levels above the editor that takes it, is a
    child of the cell container. *)
Definition focus_event_in_tree (self : Notebook) (e : event) : Prop :=
  match e with
  | DescendantFocus w =>
      match w_class w with
      | Cell _ => index w (children self) <> None
      | CodeArea | FocusMarkdown | TextArea =>
          forall p g, parent w = Some p -> parent p = Some g ->
                      index g (children self) <> None
      | Button | OtherWidget => True
      end
  | _ => True
  end.

(** A focus is empty or the reference of one of the nodes. *)
Definition focus_in (focus : option widget) (nodes : list cell_widget) : Prop :=
  match focus with
  | Some a => In a (map ref nodes)
  | None => True
  end.

Fixpoint events_in_tree (events : list event) (world : filesystem * Notebook) : Prop :=
  match events with
  | [] => True
  | e :: rest => focus_event_in_tree (snd world) e /\ events_in_tree rest (handle e world)
  end.

End RunObservations.

Section PathObservations.

(** [c in s]. *)
Fixpoint occurs (c : ascii) (s : string) : bool :=
  match s with
  | EmptyString => false
  | String a rest => Ascii.eqb a c || occurs c rest
  end.

(** [s] has no character other than a dot. *)
Fixpoint all_dots (s : string) : bool :=
  match s with
  | EmptyString => true
  | String a rest => Ascii.eqb a "."%char && all_dots rest
  end.

(** [os.path.basename] (posixpath): what follows the last slash. *)
Definition basename (p : string) : string := slice_from p (rfind "/"%char p + 1).

End PathObservations.

Section EditObservations.

(** The empty code cells with the identities [start], ..., [start + n - 1]. *)
Definition fresh_code_cells (start n : nat) : list cell_widget :=
  map (fun i => CellWidget i (new_cell CodeCell)) (seq start n).

End EditObservations.

(** ** A stub environment for running the model *)

Module Stub.

(** A kernel that counts its executions.  [run_cell] fails on the source
    [boom] without touching the cell and otherwise stores the source as the
    only output together with the execution count.  An editor widget [n]
    sits in a group that sits in cell [n]: a [CodeArea] in a code cell, the
    two others in a markdown cell. *)
Definition stub_run_cell (k : Z) (c : cell_state) : option exn * Z * cell_state :=
  match c with
  | Code source count outputs =>
      if String.eqb source "boom" then (Some (KernelError "boom"), k, c)
      else (None, (k + 1)%Z, Code source (Some (k + 1)%Z) [JStr source])
  | Markdown _ => (None, k, c)
  end.

Definition stub_parent (w : widget) : option widget :=
  match w_class w with
  | CodeArea => Some (Widget OtherWidget (2 * w_id w))
  | FocusMarkdown | TextArea => Some (Widget OtherWidget (2 * w_id w + 1))
  | OtherWidget =>
      Some (Widget (Cell (if Nat.even (w_id w) then CodeCell else MarkdownCell))
                   (Nat.div2 (w_id w)))
  | _ => None
  end.

(** A new file can be written in the current directory and in a directory
    that the file system has. *)
Definition stub_refuses_write (fs : filesystem) (p : string) : option exn :=
  match fs p with
  | Some _ => None
  | None =>
      if (rfind "/"%char p <? 0)%Z then None
      else match fs (slice_to p (rfind "/"%char p)) with
           | Some Directory => None
           | Some _ => Some NotADirectoryError
           | None => Some FileNotFoundError
           end
  end.

#[export] Instance stub : Collaborators := {|
  kernel := Z;
  NotebookKernel := 0%Z;
  get_kernel_spec := fun _ => JDict [("name", JStr "python3")];
  get_kernel_info := fun _ => JDict [("name", JStr "python3")];
  get_language_info := fun _ => JDict [("name", JStr "python")];
  restart_kernel := fun _ => 0%Z;
  run_cell := stub_run_cell;
  parent := stub_parent;
  refuses_write := stub_refuses_write
|}.

(** The record of a code cell that has not been run, and a notebook file
    with a free-form entry in its metadata and an older format version. *)
Definition code_record (source : string) : json :=
  JDict [("cell_type", JStr "code"); ("execution_count", JNull);
         ("outputs", JList []); ("source", JStr source)].

Definition sample : json :=
  JDict [("metadata", JDict [("authors", JList [JStr "ada"])]);
         ("nbformat", JInt 3); ("nbformat_minor", JInt 0);
         ("cells", JList [code_record "1+1";
                    JDict [("cell_type", JStr "markdown"); ("source", JStr "# Title")];
                    code_record "2+2"])].

(** A notebook with a record of a type the loader does not know, and one
    whose second record has no [cell_type]. *)
Definition with_raw_cell : json :=
  JDict [("cells", JList [code_record "1+1";
                          JDict [("cell_type", JStr "raw"); ("source", JStr "x")];
                          code_record "2+2"])].

Definition without_cell_type : json :=
  JDict [("cells", JList [code_record "1+1";
                          JDict [("source", JStr "x")];
                          code_record "2+2"])].

(** A disk with three notebooks, a text file and a directory. *)
Definition disk : filesystem :=
  fun p =>
    if String.eqb p "nb.ipynb" then Some (File (Some sample))
    else if String.eqb p "raw.ipynb" then Some (File (Some with_raw_cell))
    else if String.eqb p "broken.ipynb" then Some (File (Some without_cell_type))
    else if String.eqb p "notes.txt" then Some (File None)
    else if String.eqb p "dir.ipynb" then Some Directory
    else None.

(** A notebook with a code cell, a markdown cell and the focus on the
    first. *)
Definition two_cells : Notebook :=
  set_last_focused (Some (Widget (Cell CodeCell) 0))
    (set_children [CellWidget 0 (Code "1+1" None []); CellWidget 1 (Markdown "# Title")]
       (set_next_id 2 (__init__ "nb.ipynb"))).

(** A notebook whose first code cell fails when run. *)
Definition failing_first : Notebook :=
  set_children [CellWidget 0 (Code "boom" None []); CellWidget 1 (Code "2+2" None [])]
    (set_next_id 2 (__init__ "nb.ipynb")).

(** The notebook that a load of [nb.ipynb] gives, and the same with the
    focus on its second cell. *)
Definition loaded : Notebook := snd (load_notebook disk (__init__ "nb.ipynb")).

Definition focus_on_second : Notebook :=
  set_last_focused (Some (Widget (Cell MarkdownCell) 1)) loaded.

(** An environment in which a text area hangs directly in the cell
    container (widget 50), whose parent is the notebook (widget 51). *)
Definition loose_parent (w : widget) : option widget :=
  match w_class w with
  | TextArea => Some (Widget OtherWidget 50)
  | OtherWidget => if Nat.eqb (w_id w) 50 then Some (Widget OtherWidget 51) else None
  | _ => None
  end.

Definition loose : Collaborators := {|
  kernel := Z;
  NotebookKernel := 0%Z;
  get_kernel_spec := fun _ => JDict [("name", JStr "python3")];
  get_kernel_info := fun _ => JDict [("name", JStr "python3")];
  get_language_info := fun _ => JDict [("name", JStr "python")];
  restart_kernel := fun _ => 0%Z;
  run_cell := stub_run_cell;
  parent := loose_parent;
  refuses_write := stub_refuses_write
|}.

End Stub.

(** * Properties *)

Section Frames.
Context `{Collaborators}.

Lemma keeps_ret {A B} (f : Notebook -> B) (a : A) : keeps f (ret a).
Proof. intro; reflexivity. Qed.

Lemma keeps_raise {A B} (f : Notebook -> B) (e : exn) : keeps f (raise (A:=A) e).
Proof. intro; reflexivity. Qed.

Lemma keeps_lift {A B} (f : Notebook -> B) (r : result A) : keeps f (lift r).
Proof. intro; reflexivity. Qed.

Lemma keeps_get {B C} (f : Notebook -> B) (g : Notebook -> C) : keeps f (get g).
Proof. intro; reflexivity. Qed.

Lemma keeps_modify {B} (f : Notebook -> B) (g : Notebook -> Notebook) :
  (forall self, f (g self) = f self) -> keeps f (modify g).
Proof. intros Hg self; apply Hg. Qed.

Lemma keeps_bind {A B C} (f : Notebook -> C) (m : M A) (k : A -> M B) :
  keeps f m -> (forall a, keeps f (k a)) -> keeps f (bind m k).
Proof.
  intros Hm Hk self. unfold bind.
  specialize (Hm self). destruct (m self) as [[a|e] self']; simpl in *.
  - rewrite Hk. exact Hm.
  - exact Hm.
Qed.

End Frames.

(** Splits a method into its statements and closes the assignments that do
    not touch the observed attribute. *)
Ltac keeps_step :=
  match goal with
  | |- keeps _ (bind _ _) => apply keeps_bind; [ | intro ]
  | |- keeps _ (ret _) => apply keeps_ret
  | |- keeps _ (raise _) => apply keeps_raise
  | |- keeps _ (lift _) => apply keeps_lift
  | |- keeps _ (get _) => apply keeps_get
  | |- keeps _ (modify _) => apply keeps_modify; intro; reflexivity
  | |- keeps _ (if ?b then _ else _) => destruct b
  | |- keeps _ (match ?x with _ => _ end) => destruct x
  end.

Section Validation.
Context `{Collaborators}.

Lemma construct_keeps {B} (f : Notebook -> B) state :
  (forall n self, f (set_next_id n self) = f self) -> keeps f (construct state).
Proof.
  intro Hn. unfold construct. repeat keeps_step. apply keeps_modify. intro; apply Hn.
Qed.

Lemma cell_container_mount_keeps {B} (f : Notebook -> B) w b a :
  (forall l self, f (set_children l self) = f self) ->
  keeps f (cell_container_mount w b a).
Proof.
  intro Hc. unfold cell_container_mount. repeat keeps_step.
  apply keeps_modify. intro; apply Hc.
Qed.

(** Mounting the cells of a file changes the children and the identity
    counter only. *)
Lemma load_cell_keeps {B} (f : Notebook -> B) cell :
  (forall n self, f (set_next_id n self) = f self) ->
  (forall l self, f (set_children l self) = f self) ->
  keeps f (load_cell cell).
Proof.
  intros Hn Hc. unfold load_cell.
  apply keeps_bind; [apply keeps_lift|intro t].
  destruct (eq_str t "code").
  - apply keeps_bind; [apply keeps_lift|intro].
    apply keeps_bind; [apply construct_keeps, Hn|intro].
    apply cell_container_mount_keeps, Hc.
  - apply keeps_bind; [apply keeps_lift|intro t'].
    destruct (eq_str t' "markdown"); [|apply keeps_ret].
    apply keeps_bind; [apply keeps_lift|intro].
    apply keeps_bind; [apply construct_keeps, Hn|intro].
    apply cell_container_mount_keeps, Hc.
Qed.

Lemma load_cells_keeps {B} (f : Notebook -> B) items :
  (forall n self, f (set_next_id n self) = f self) ->
  (forall l self, f (set_children l self) = f self) ->
  keeps f (load_cells items).
Proof.
  intros Hn Hc. induction items as [|cell rest IH]; simpl.
  - apply keeps_ret.
  - apply keeps_bind; [now apply load_cell_keeps|intro; exact IH].
Qed.

(** The three guards of [load_notebook], spelled out on [self]. *)
Lemma load_notebook_unfold (fs : filesystem) (self : Notebook) :
  load_notebook fs self =
  if String.eqb (path self) "new_empty_terminal_notebook" then (Ok tt, self)
  else if negb (exists_ fs (path self)) then assign_valid_notebook false self
  else if negb (String.eqb (snd (splitext (path self))) ".ipynb")
       then assign_valid_notebook false self
       else (content <- lift (open_json_load fs (path self)) ;;
             cells <- lift (getitem content "cells") ;;
             items <- lift (iter cells) ;;
             load_cells items) self.
Proof.
  unfold load_notebook, bind at 1, get.
  destruct (String.eqb (path self) "new_empty_terminal_notebook"); [reflexivity|].
  destruct (negb (exists_ fs (path self))); [reflexivity|].
  destruct (negb (String.eqb (snd (splitext (path self))) ".ipynb")); reflexivity.
Qed.

Lemma read_cells_keeps {B} (f : Notebook -> B) (fs : filesystem) (p : string) :
  (forall n self, f (set_next_id n self) = f self) ->
  (forall l self, f (set_children l self) = f self) ->
  keeps f (content <- lift (open_json_load fs p) ;;
           cells <- lift (getitem content "cells") ;;
           items <- lift (iter cells) ;;
           load_cells items).
Proof.
  intros Hn Hc. repeat keeps_step. apply load_cells_keeps; assumption.
Qed.

Example splitext_notebook : splitext "work/nb.ipynb" = ("work/nb", ".ipynb").
Proof. reflexivity. Qed.

Example splitext_dotfile : splitext "work/.ipynb" = ("work/.ipynb", "").
Proof. reflexivity. Qed.

Example splitext_dotted_directory : splitext "work.ipynb/nb" = ("work.ipynb/nb", "").
Proof. reflexivity. Qed.

(** C2, as the code has it: a notebook opened on path [p] is valid after
    [load_notebook] exactly when [p] is the name of a new unsaved notebook
    or [p] exists, as a file or as a directory, and [os.path.splitext] gives
    it the extension [.ipynb]. *)
Theorem load_notebook_valid_iff (fs : filesystem) (p : string) :
  valid_notebook (snd (load_notebook fs (__init__ p))) = true <->
  p = "new_empty_terminal_notebook" \/
  (exists_ fs p = true /\ snd (splitext p) = ".ipynb").
Proof.
  rewrite load_notebook_unfold. simpl path.
  destruct (String.eqb_spec p "new_empty_terminal_notebook") as [Hs|Hs].
  - simpl. split; auto.
  - destruct (exists_ fs p) eqn:He; simpl negb; cbv iota.
    + destruct (String.eqb_spec (snd (splitext p)) ".ipynb") as [Hx|Hx]; simpl negb; cbv iota.
      * rewrite (read_cells_keeps valid_notebook fs p); [|reflexivity|reflexivity].
        simpl. split; auto.
      * simpl. split; [discriminate|]. intros [?|[_ ?]]; contradiction.
    + simpl. split; [discriminate|]. intros [?|[? _]]; [contradiction|discriminate].
Qed.

End Validation.

(** ** The cell sequence and its focus *)

Section CellSequence.
Context `{Collaborators}.

Lemma class_eqb_eq (a b : wclass) : class_eqb a b = true -> a = b.
Proof.
  destruct a as [[]| | | | |], b as [[]| | | | |]; simpl; intro E;
    try reflexivity; discriminate.
Qed.

Lemma class_eqb_refl (a : wclass) : class_eqb a a = true.
Proof. destruct a as [[]| | | | |]; reflexivity. Qed.

Lemma same_widget_eq (a b : widget) : same_widget a b = true <-> a = b.
Proof.
  destruct a as [ca na], b as [cb nb]. unfold same_widget; simpl. split.
  - intro E. apply andb_true_iff in E as [Ec En].
    apply class_eqb_eq in Ec. apply Nat.eqb_eq in En. now subst.
  - intro E. injection E as -> ->. now rewrite class_eqb_refl, Nat.eqb_refl.
Qed.

(** The index of a spot splits the children around its first occurrence. *)
Lemma index_split (spot : widget) (nodes : list cell_widget) (i : nat) :
  index spot nodes = Some i ->
  exists l1 c l2,
    nodes = l1 ++ c :: l2 /\ ref c = spot /\ length l1 = i /\ index spot l1 = None.
Proof.
  revert i. induction nodes as [|c rest IH]; simpl; intros i E; [discriminate|].
  destruct (same_widget (ref c) spot) eqn:S.
  - injection E as <-. exists [], c, rest. repeat split.
    now apply same_widget_eq.
  - destruct (index spot rest) as [j|] eqn:J; [|discriminate].
    injection E as <-. destruct (IH j eq_refl) as (l1 & c' & l2 & -> & R & L & N).
    exists (c :: l1), c', l2. repeat split; simpl; auto.
    now rewrite S, N.
Qed.

Lemma insert_at_length (l1 l2 : list cell_widget) (w : cell_widget) :
  insert_at (length l1) w (l1 ++ l2) = l1 ++ w :: l2.
Proof.
  unfold insert_at.
  rewrite firstn_app, skipn_app, firstn_all, skipn_all, Nat.sub_diag. simpl.
  now rewrite app_nil_r.
Qed.

Lemma insert_at_S_length (l1 l2 : list cell_widget) (c w : cell_widget) :
  insert_at (S (length l1)) w (l1 ++ c :: l2) = l1 ++ c :: w :: l2.
Proof.
  replace (l1 ++ c :: l2) with ((l1 ++ [c]) ++ l2) by now rewrite <- app_assoc.
  replace (S (length l1)) with (length (l1 ++ [c]))
    by (rewrite length_app; simpl; lia).
  rewrite insert_at_length. now rewrite <- app_assoc.
Qed.

Lemma index_remove (w : widget) (nodes : list cell_widget) :
  index w (remove w nodes) = None.
Proof.
  induction nodes as [|c rest IH]; simpl; [reflexivity|].
  destruct (same_widget (ref c) w) eqn:S; simpl; [exact IH|].
  now rewrite S, IH.
Qed.

(** [add_cell], statement by statement, on [self]. *)
Lemma add_cell_unfold (t : cell_type) (pos : position) (self : Notebook) :
  add_cell t pos self =
  let w := CellWidget (next_id self) (new_cell t) in
  let self1 := set_next_id (S (next_id self)) self in
  let mounted :=
    match pos with
    | before => mount (children self) w (last_focused self) None
    | after => mount (children self) w None (last_focused self)
    end in
  match mounted with
  | Raise e => (Raise e, self1)
  | Ok nodes =>
      (Ok (ref w),
       match last_focused self with
       | Some _ => set_children nodes self1
       | None => set_last_focused (Some (ref w)) (set_children nodes self1)
       end)
  end.
Proof.
  unfold add_cell, construct, cell_container_mount, bind, get, modify, lift, ret.
  destruct pos; simpl; destruct (last_focused self) as [a|] eqn:F;
    unfold mount, mount_elsewhere;
    try (destruct (index a (children self)); [|destruct (parent a)]);
    simpl; rewrite ?F; reflexivity.
Qed.

End CellSequence.

Section FocusTheorems.
Context `{Collaborators}.

(** C6: [add_cell] puts the new cell next to the focused cell, in front of
    it for [before] and behind it for [after], and leaves the focus where it
    was; with no focus the new cell goes to the end of the sequence and
    becomes the focus. *)
Theorem add_cell_inserts_at_focus (t : cell_type) (pos : position) (self : Notebook) :
  focus_in_sequence self ->
  let w := CellWidget (next_id self) (new_cell t) in
  exists self',
    add_cell t pos self = (Ok (ref w), self') /\
    match last_focused self with
    | None =>
        children self' = children self ++ [w] /\ last_focused self' = Some (ref w)
    | Some a =>
        last_focused self' = Some a /\
        exists l1 c l2,
          children self = l1 ++ c :: l2 /\ ref c = a /\ index a l1 = None /\
          children self' =
            match pos with
            | before => l1 ++ w :: c :: l2
            | after => l1 ++ c :: w :: l2
            end
    end.
Proof.
  intros Hf w. unfold focus_in_sequence in Hf. rewrite add_cell_unfold. fold w.
  destruct (last_focused self) as [a|] eqn:F.
  - destruct (index a (children self)) as [i|] eqn:I; [|congruence].
    destruct (index_split _ _ _ I) as (l1 & c & l2 & E & R & L & N).
    destruct pos; unfold mount; rewrite I; cbv zeta beta iota;
      eexists; (split; [reflexivity|]); (split; [exact F|]);
      exists l1, c, l2; repeat split; auto; simpl; rewrite E, <- L.
    + apply insert_at_length.
    + apply insert_at_S_length.
  - destruct pos; unfold mount; cbv zeta beta iota;
      eexists; (split; [reflexivity|]); split; reflexivity.
Qed.


End FocusTheorems.

(** ** Validity does not guard the actions *)

Section InvalidNotebook.
Context `{Collaborators}.

(** A notebook that [load_notebook] marked invalid is the initial notebook
    with the flag cleared and the watcher run. *)
Lemma load_notebook_invalid (fs : filesystem) (p : string) :
  valid_notebook (snd (load_notebook fs (__init__ p))) = false ->
  snd (load_notebook fs (__init__ p)) = set_display hidden (set_valid false (__init__ p)).
Proof.
  rewrite load_notebook_unfold. simpl path.
  destruct (String.eqb p "new_empty_terminal_notebook"); [discriminate|].
  destruct (negb (exists_ fs p)); [reflexivity|].
  destruct (negb (String.eqb (snd (splitext p)) ".ipynb")); [reflexivity|].
  rewrite (read_cells_keeps valid_notebook fs p); [|reflexivity|reflexivity].
  discriminate.
Qed.

(** C3, as the code has it: a notebook that failed validation has its
    button row, rule and cell container hidden and its notice displayed, and
    that is all: [add_cell] does not look at the flag, raises nothing and
    mounts the new cell. *)
Theorem invalid_notebook_hidden_not_guarded (fs : filesystem) (p : string)
        (t : cell_type) (pos : position) :
  let self := snd (load_notebook fs (__init__ p)) in
  valid_notebook self = false ->
  display self = hidden /\
  exists self',
    add_cell t pos self = (Ok (Widget (Cell t) 0), self') /\
    children self' = [CellWidget 0 (new_cell t)] /\
    last_focused self' = Some (Widget (Cell t) 0) /\
    valid_notebook self' = false.
Proof.
  intros self Hv. subst self. rewrite (load_notebook_invalid fs p Hv).
  split; [reflexivity|].
  rewrite add_cell_unfold. destruct pos, t; simpl; eexists; repeat split.
Qed.

End InvalidNotebook.

(** ** Invariants of the event loop *)

Section Invariants.
Context `{Collaborators}.

Lemma add_cell_keeps {B} (f : Notebook -> B) (t : cell_type) (pos : position) :
  (forall n self, f (set_next_id n self) = f self) ->
  (forall l self, f (set_children l self) = f self) ->
  (forall w self, f (set_last_focused w self) = f self) ->
  keeps f (add_cell t pos).
Proof.
  intros Hn Hc Hf self. rewrite add_cell_unfold. cbv zeta.
  destruct pos;
    match goal with |- context [mount ?a ?b ?c ?d] => destruct (mount a b c d) end;
    simpl; try apply Hn; destruct (last_focused self); now rewrite ?Hf, ?Hc, ?Hn.
Qed.

Lemma run_all_keeps {B} (f : Notebook -> B) :
  (forall k self, f (set_kernel k self) = f self) ->
  (forall l self, f (set_children l self) = f self) ->
  keeps f run_all.
Proof.
  intros Hk Hc. unfold run_all. repeat keeps_step.
  - apply keeps_modify; intro; apply Hk.
  - apply keeps_modify; intro; apply Hc.
Qed.

Lemma assign_valid_notebook_keeps {B} (f : Notebook -> B) (v : bool) :
  (forall b self, f (set_valid b self) = f self) ->
  (forall d self, f (set_display d self) = f self) ->
  keeps f (assign_valid_notebook v).
Proof.
  intros Hv Hd. unfold assign_valid_notebook, watch_valid_notebook.
  repeat keeps_step; apply keeps_modify; intro; auto.
Qed.

Lemma load_notebook_keeps {B} (f : Notebook -> B) (fs : filesystem) :
  (forall n self, f (set_next_id n self) = f self) ->
  (forall l self, f (set_children l self) = f self) ->
  (forall b self, f (set_valid b self) = f self) ->
  (forall d self, f (set_display d self) = f self) ->
  keeps f (load_notebook fs).
Proof.
  intros Hn Hc Hv Hd self. rewrite load_notebook_unfold.
  destruct (String.eqb _ _); [reflexivity|].
  destruct (negb (exists_ _ _)); [now apply assign_valid_notebook_keeps|].
  destruct (negb (String.eqb _ _)); [now apply assign_valid_notebook_keeps|].
  now apply read_cells_keeps.
Qed.

Lemma on_button_pressed_keeps {B} (f : Notebook -> B) (b : string) :
  (forall n self, f (set_next_id n self) = f self) ->
  (forall l self, f (set_children l self) = f self) ->
  (forall w self, f (set_last_focused w self) = f self) ->
  (forall k self, f (set_kernel k self) = f self) ->
  keeps f (on_button_pressed b).
Proof.
  intros Hn Hc Hf Hk. unfold on_button_pressed.
  repeat match goal with |- keeps _ (if ?c then _ else _) => destruct c end.
  - apply keeps_bind; [now apply add_cell_keeps|intro; apply keeps_ret].
  - apply keeps_bind; [now apply add_cell_keeps|intro; apply keeps_ret].
  - apply keeps_bind; [apply keeps_get|intro]. apply keeps_modify; intro; apply Hk.
  - now apply run_all_keeps.
  - apply keeps_ret.
Qed.

(** An attribute that no assignment of the class touches is the same after
    every handler: this covers [path], [_metadata] and the format version. *)
Lemma handle_keeps {B} (f : Notebook -> B) (e : event) (world : filesystem * Notebook) :
  (forall n self, f (set_next_id n self) = f self) ->
  (forall l self, f (set_children l self) = f self) ->
  (forall w self, f (set_last_focused w self) = f self) ->
  (forall k self, f (set_kernel k self) = f self) ->
  (forall b self, f (set_valid b self) = f self) ->
  (forall d self, f (set_display d self) = f self) ->
  f (snd (handle e world)) = f (snd world).
Proof.
  intros Hn Hc Hf Hk Hv Hd. destruct world as [fs self]. destruct e; simpl.
  - now apply load_notebook_keeps.
  - unfold on_descendant_focus, modify, raise, ret.
    destruct (w_class w); simpl; auto; destruct (parent w); simpl; auto.
  - now apply on_button_pressed_keeps.
  - unfold action_add_cell_after.
    apply keeps_bind; [now apply add_cell_keeps|intro; apply keeps_ret].
  - unfold action_add_cell_before.
    apply keeps_bind; [now apply add_cell_keeps|intro; apply keeps_ret].
  - unfold action_delete_cell, bind, get, modify; simpl.
    destruct (last_focused self); simpl; [now rewrite Hf, Hc|reflexivity].
  - reflexivity.
  - reflexivity.
Qed.

Lemma run_events_keeps {B} (f : Notebook -> B) (events : list event)
      (world : filesystem * Notebook) :
  (forall n self, f (set_next_id n self) = f self) ->
  (forall l self, f (set_children l self) = f self) ->
  (forall w self, f (set_last_focused w self) = f self) ->
  (forall k self, f (set_kernel k self) = f self) ->
  (forall b self, f (set_valid b self) = f self) ->
  (forall d self, f (set_display d self) = f self) ->
  f (snd (run_events events world)) = f (snd world).
Proof.
  intros Hn Hc Hf Hk Hv Hd. unfold run_events. revert world.
  induction events as [|e rest IH]; intro world; simpl; [reflexivity|].
  rewrite IH. now apply handle_keeps.
Qed.

(** The record that [to_nb] builds carries [nbformat] 4 and
    [nbformat_minor] 5 after any load and any sequence of events. *)
Lemma to_nb_format_version (fs : filesystem) (p : string) (events : list event) :
  let self := snd (run_events events (fs, __init__ p)) in
  getitem (to_nb self) "nbformat" = Ok (JInt 4) /\
  getitem (to_nb self) "nbformat_minor" = Ok (JInt 5).
Proof.
  intro self.
  assert (F : format self = (4%Z, 5%Z))
    by (unfold self; now rewrite (run_events_keeps format)).
  unfold format in F. injection F as F1 F2.
  unfold to_nb. simpl. now rewrite F1, F2.
Qed.

End Invariants.

Section FocusInvariant.
Context `{Collaborators}.
Hypothesis layout : editors_sit_in_cells.

Lemma focus_is_cell_keeps {A} (m : M A) (self : Notebook) :
  keeps last_focused m -> focus_is_cell self -> focus_is_cell (snd (m self)).
Proof. unfold focus_is_cell. intros K. now rewrite K. Qed.

Lemma add_cell_focus_is_cell (t : cell_type) (pos : position) (self : Notebook) :
  focus_is_cell self -> focus_is_cell (snd (add_cell t pos self)).
Proof.
  unfold focus_is_cell. rewrite add_cell_unfold. cbv zeta.
  destruct pos;
    match goal with |- context [mount ?a ?b ?c ?d] => destruct (mount a b c d) end;
    simpl; destruct (last_focused self) eqn:F; simpl; rewrite ?F; auto.
Qed.

Lemma on_descendant_focus_is_cell (w : widget) (self : Notebook) :
  focus_is_cell self -> focus_is_cell (snd (on_descendant_focus w self)).
Proof.
  unfold focus_is_cell, on_descendant_focus, is_cell. intro Hi.
  destruct (w_class w) eqn:C; simpl; try exact Hi;
    try (destruct (parent w) as [p|] eqn:P; simpl; [|exact Hi];
         destruct (parent p) as [g|] eqn:G; [|exact I];
         apply (layout w p g); auto).
  now rewrite C.
Qed.

Lemma handle_focus_is_cell (e : event) (world : filesystem * Notebook) :
  focus_is_cell (snd world) -> focus_is_cell (snd (handle e world)).
Proof.
  destruct world as [fs self]. simpl. intro I. destruct e; simpl; auto.
  - apply focus_is_cell_keeps; [|exact I]. now apply load_notebook_keeps.
  - now apply on_descendant_focus_is_cell.
  - unfold on_button_pressed.
    repeat match goal with |- context [if ?c then _ else _] => destruct c end.
    + unfold bind. pose proof (add_cell_focus_is_cell CodeCell after self I) as J.
      destruct (add_cell CodeCell after self) as [[]]; exact J.
    + unfold bind. pose proof (add_cell_focus_is_cell MarkdownCell after self I) as J.
      destruct (add_cell MarkdownCell after self) as [[]]; exact J.
    + exact I.
    + apply focus_is_cell_keeps; [|exact I]. now apply run_all_keeps.
    + exact I.
  - unfold action_add_cell_after, bind.
    pose proof (add_cell_focus_is_cell CodeCell after self I) as J.
    destruct (add_cell CodeCell after self) as [[]]; exact J.
  - unfold action_add_cell_before, bind.
    pose proof (add_cell_focus_is_cell CodeCell before self I) as J.
    destruct (add_cell CodeCell before self) as [[]]; exact J.
  - unfold focus_is_cell, action_delete_cell, bind, get, modify; simpl.
    destruct (last_focused self) eqn:F; simpl; [exact Logic.I|]. now rewrite F.
Qed.


End FocusInvariant.

(** ** Metadata *)

Section Metadata.
Context `{Collaborators}.


End Metadata.

(** ** Loading malformed content *)

Section Loading.
Context `{Collaborators}.

Lemma load_cells_app (l1 l2 : list json) (self : Notebook) :
  load_cells (l1 ++ l2) self =
  match load_cells l1 self with
  | (Ok _, s1) => load_cells l2 s1
  | (Raise e, s1) => (Raise e, s1)
  end.
Proof.
  revert self. induction l1 as [|cell rest IH]; intro self; simpl; [reflexivity|].
  unfold bind. destruct (load_cell cell self) as [[[]|e] s]; [apply IH|reflexivity].
Qed.

(** On a path that passes the three guards, [load_notebook] is the reading
    of the cells. *)
Lemma load_notebook_on_file (fs : filesystem) (p : string) (content : json) :
  String.eqb p "new_empty_terminal_notebook" = false ->
  fs p = Some (File (Some content)) ->
  snd (splitext p) = ".ipynb" ->
  load_notebook fs (__init__ p) =
  (cells <- lift (getitem content "cells") ;;
   items <- lift (iter cells) ;;
   load_cells items) (__init__ p).
Proof.
  intros Hs Hf Hx. rewrite load_notebook_unfold. simpl path.
  rewrite Hs. unfold exists_. rewrite Hf, Hx. simpl.
  unfold bind at 1, lift at 1, open_json_load. now rewrite Hf.
Qed.

Lemma getitem_raise (v : json) (key : string) (e : exn) :
  getitem v key = Raise e -> e = KeyError key \/ e = TypeError.
Proof.
  destruct v; simpl; intro E; try (injection E as <-; now right).
  destruct (dict_get key entries); [discriminate|]. injection E as <-. now left.
Qed.

(** Reading the cells up to one record and from it on. *)
Lemma read_cells_split (content cell : json) (l1 l2 : list json) (self s1 : Notebook) :
  getitem content "cells" = Ok (JList (l1 ++ cell :: l2)) ->
  load_cells l1 self = (Ok tt, s1) ->
  (cells <- lift (getitem content "cells") ;;
   items <- lift (iter cells) ;;
   load_cells items) self =
  match load_cell cell s1 with
  | (Ok _, s2) => load_cells l2 s2
  | (Raise e, s2) => (Raise e, s2)
  end.
Proof.
  intros E L. unfold bind at 1, lift at 1. rewrite E.
  unfold bind at 1, lift at 1, iter. rewrite load_cells_app, L. reflexivity.
Qed.

Lemma load_cell_raise (cell : json) (e : exn) (self : Notebook) :
  getitem cell "cell_type" = Raise e -> load_cell cell self = (Raise e, self).
Proof. intro E. unfold load_cell, bind, lift. now rewrite E. Qed.

Lemma load_cell_skip (cell t : json) (self : Notebook) :
  getitem cell "cell_type" = Ok t ->
  eq_str t "code" = false -> eq_str t "markdown" = false ->
  load_cell cell self = (Ok tt, self).
Proof. intros E Hc Hm. unfold load_cell, bind, lift. now rewrite E, Hc, Hm. Qed.

(** C4, as the code has it: the content of the file never marks the
    notebook invalid; a content without [cells] raises the lookup error with
    nothing mounted; a record without [cell_type] raises the lookup error
    with the cells of the records before it mounted; a record of an unknown
    type is skipped and loading goes on with the next record. *)
Theorem load_notebook_malformed_content (fs : filesystem) (p : string) (content : json) :
  String.eqb p "new_empty_terminal_notebook" = false ->
  fs p = Some (File (Some content)) ->
  snd (splitext p) = ".ipynb" ->
  let loaded := load_notebook fs (__init__ p) in
  valid_notebook (snd loaded) = true /\
  (forall e, getitem content "cells" = Raise e ->
             loaded = (Raise e, __init__ p) /\ e <> CorruptDocumentError) /\
  (forall l1 cell l2 s1,
      getitem content "cells" = Ok (JList (l1 ++ cell :: l2)) ->
      load_cells l1 (__init__ p) = (Ok tt, s1) ->
      (forall e, getitem cell "cell_type" = Raise e ->
                 loaded = (Raise e, s1) /\ e <> CorruptDocumentError) /\
      (forall t, getitem cell "cell_type" = Ok t ->
                 eq_str t "code" = false -> eq_str t "markdown" = false ->
                 loaded = load_cells l2 s1)).
Proof.
  intros Hs Hf Hx loaded. subst loaded.
  rewrite (load_notebook_on_file fs p content Hs Hf Hx).
  split; [|split].
  - match goal with |- valid_notebook (snd (?m _)) = _ =>
      assert (K : keeps valid_notebook m) end.
    { repeat keeps_step. apply load_cells_keeps; reflexivity. }
    now rewrite K.
  - intros e E. unfold bind at 1, lift at 1. rewrite E. split; [reflexivity|].
    destruct (getitem_raise _ _ _ E); subst; discriminate.
  - intros l1 cell l2 s1 E L. rewrite (read_cells_split _ _ _ _ _ _ E L). split.
    + intros e Ec. rewrite (load_cell_raise _ _ _ Ec). split; [reflexivity|].
      destruct (getitem_raise _ _ _ Ec); subst; discriminate.
    + intros t Ec Hc Hm. now rewrite (load_cell_skip _ _ _ Ec Hc Hm).
Qed.

End Loading.

(** ** Save and load *)

Section RoundTrip.
Context `{Collaborators}.

Lemma load_cell_to_nb (state : cell_state) (self : Notebook) :
  load_cell (cell_to_nb state) self =
  (Ok tt, set_children (children self ++ [CellWidget (next_id self) state])
            (set_next_id (S (next_id self)) self)).
Proof. destruct state as [source [n|] outputs|source]; reflexivity. Qed.

(** Loading the records of a list of cells mounts cells with these states,
    in the same order, behind the cells already there. *)
Lemma load_cells_to_nb (states : list cell_state) (self : Notebook) :
  exists self',
    load_cells (map cell_to_nb states) self = (Ok tt, self') /\
    map cw_state (children self') = map cw_state (children self) ++ states.
Proof.
  revert self. induction states as [|state rest IH]; intro self; simpl.
  - exists self. split; [reflexivity|]. now rewrite app_nil_r.
  - unfold bind. rewrite load_cell_to_nb.
    destruct (IH (set_children (children self ++ [CellWidget (next_id self) state])
                    (set_next_id (S (next_id self)) self))) as (self' & E & C).
    exists self'. split; [exact E|]. rewrite C. simpl.
    now rewrite map_app, <- app_assoc.
Qed.

(** What [action_save] leaves at the path of a notebook that is not new,
    when [open] lets the write through. *)
Lemma action_save_writes (fs fs' : filesystem) (self : Notebook) :
  String.eqb (path self) "new_empty_terminal_notebook" = false ->
  action_save fs self = Ok fs' ->
  fs' (path self) = Some (File (Some (to_nb self))).
Proof.
  intros Hs. unfold action_save, open_json_dump. rewrite Hs.
  destruct (fs (path self)) as [[|text|e]|]; try discriminate;
    destruct (refuses_write fs (path self)); try discriminate;
    intro E; injection E as <-; now rewrite String.eqb_refl.
Qed.

(** A file that holds the record of a notebook loads as a valid notebook
    with the cells of that notebook. *)
Lemma load_saved_record (fs : filesystem) (p : string) (self : Notebook) :
  String.eqb p "new_empty_terminal_notebook" = false ->
  snd (splitext p) = ".ipynb" ->
  fs p = Some (File (Some (to_nb self))) ->
  exists self',
    load_notebook fs (__init__ p) = (Ok tt, self') /\
    valid_notebook self' = true /\
    map cw_state (children self') = map cw_state (children self).
Proof.
  intros Hs Hx Hf.
  destruct (load_cells_to_nb (map cw_state (children self)) (__init__ p))
    as (self' & E & C).
  exists self'. split; [|split; [|exact C]].
  - rewrite (load_notebook_on_file fs p (to_nb self) Hs Hf Hx).
    unfold to_nb, bind, lift; simpl. rewrite map_map in E. exact E.
  - change self' with (snd (Ok tt, self')). rewrite <- E.
    now rewrite (load_cells_keeps valid_notebook).
Qed.

(** C1: take a valid notebook that a load produced and save it.  When the
    save returns, the file at the path of the notebook holds the record
    [to_nb] of the notebook, and a load from any file system that has this
    file at this path gives a valid notebook with the same cells in the same
    order: same kinds, sources, execution counts and outputs. *)
Theorem load_save_load (fs fs' : filesystem) (p : string) (self : Notebook) :
  load_notebook fs (__init__ p) = (Ok tt, self) ->
  valid_notebook self = true ->
  action_save fs self = Ok fs' ->
  (p = "new_empty_terminal_notebook" \/ fs' p = Some (File (Some (to_nb self)))) /\
  forall fs2,
    fs2 p = fs' p ->
    exists self',
      load_notebook fs2 (__init__ p) = (Ok tt, self') /\
      valid_notebook self' = true /\
      map cw_state (children self') = map cw_state (children self).
Proof.
  intros L V S.
  assert (P : path self = p).
  { change self with (snd (Ok tt, self)). rewrite <- L.
    now rewrite (load_notebook_keeps path fs). }
  rewrite load_notebook_unfold in L. simpl path in L.
  destruct (String.eqb p "new_empty_terminal_notebook") eqn:Hs.
  - injection L as <-. split; [left; now apply String.eqb_eq|].
    intros fs2 _. exists (__init__ p). repeat split.
    rewrite load_notebook_unfold. simpl path. now rewrite Hs.
  - destruct (exists_ fs p) eqn:He; simpl negb in L; cbv iota in L;
      [|injection L as <-; discriminate].
    destruct (String.eqb_spec (snd (splitext p)) ".ipynb") as [Hx|Hx];
      simpl negb in L; cbv iota in L; [|injection L as <-; discriminate].
    rewrite <- P in Hs.
    pose proof (action_save_writes fs fs' self Hs S) as W.
    rewrite P in W, Hs. split; [now right|].
    intros fs2 E. rewrite W in E. now apply load_saved_record.
Qed.

End RoundTrip.

(** ** The format version of a saved file *)

Section SavedFormat.
Context `{Collaborators}.

(** C10: whatever file the notebook was opened on and whatever happened
    since, a save that writes leaves at the path of the notebook a file whose
    record carries [nbformat] 4 and [nbformat_minor] 5. *)
Theorem saved_file_format_version (fs fs' : filesystem) (p : string)
        (events : list event) :
  let world := run_events events (fs, __init__ p) in
  p <> "new_empty_terminal_notebook" ->
  action_save (fst world) (snd world) = Ok fs' ->
  exists nb,
    fs' p = Some (File (Some nb)) /\
    nb = to_nb (snd world) /\
    getitem nb "nbformat" = Ok (JInt 4) /\
    getitem nb "nbformat_minor" = Ok (JInt 5).
Proof.
  intros world Hs S.
  assert (P : path (snd world) = p)
    by (unfold world; now rewrite (run_events_keeps path)).
  assert (F : format (snd world) = (4%Z, 5%Z))
    by (unfold world; now rewrite (run_events_keeps format)).
  assert (Hs' : String.eqb (path (snd world)) "new_empty_terminal_notebook" = false)
    by (rewrite P; now apply String.eqb_neq).
  pose proof (action_save_writes _ _ _ Hs' S) as W. rewrite P in W.
  exists (to_nb (snd world)). split; [exact W|]. split; [reflexivity|].
  unfold format in F. injection F as F1 F2.
  unfold to_nb. simpl. now rewrite F1, F2.
Qed.

End SavedFormat.

(** ** Run all *)

Section RunAll.
Context `{Collaborators}.

(** The loop runs the code cells in order; it either gets through all of
    them or stops at the first whose run raises, leaving the cells behind it
    as they were. *)
Lemma run_children_spec (nodes : list cell_widget) (k : kernel) :
  let o := run_children k nodes in
  match raised o with
  | None => ran o = map cw_id (filter is_code nodes)
  | Some e =>
      exists l1 c l2,
        nodes = l1 ++ c :: l2 /\ is_code c = true /\
        ran o = map cw_id (filter is_code l1) ++ [cw_id c] /\
        exists l1' c',
          children_after o = l1' ++ c' :: l2 /\ length l1' = length l1
  end.
Proof.
  revert k. induction nodes as [|child rest IH]; intro k; simpl; [reflexivity|].
  destruct (is_code child) eqn:Hc.
  - destruct (run_cell k (cw_state child)) as [[[e|] k'] state'] eqn:R; simpl.
    + exists [], child, rest. repeat split; auto.
      exists [], (CellWidget (cw_id child) state'). split; reflexivity.
    + specialize (IH k'). simpl in IH.
      destruct (raised (run_children k' rest)) as [e|].
      * destruct IH as (l1 & c & l2 & -> & C & Rn & l1' & c' & A & L).
        exists (child :: l1), c, l2. repeat split; auto.
        { simpl. rewrite Hc. simpl. now rewrite Rn. }
        exists (CellWidget (cw_id child) state' :: l1'), c'. simpl.
        now rewrite A, L.
      * now rewrite IH.
  - specialize (IH k). simpl in IH.
    destruct (raised (run_children k rest)) as [e|].
    + destruct IH as (l1 & c & l2 & -> & C & Rn & l1' & c' & A & L).
      exists (child :: l1), c, l2. repeat split; auto.
      { simpl. rewrite Hc. exact Rn. }
      exists (child :: l1'), c'. simpl. now rewrite A, L.
    + exact IH.
Qed.

(** C5, as the code has it: the run-all button runs the code cells, and only
    them, one after the other in document order.  When no run raises, every
    code cell has been run; when one raises, the handler raises the same
    exception at once and the cells behind that one are neither run nor
    changed. *)
Theorem run_all_stops_at_first_failure (self : Notebook) :
  let o := run_children (notebook_kernel self) (children self) in
  match raised o with
  | None =>
      fst (on_button_pressed "run-all" self) = Ok tt /\
      ran o = map cw_id (filter is_code (children self))
  | Some e =>
      fst (on_button_pressed "run-all" self) = Raise e /\
      exists l1 c l2,
        children self = l1 ++ c :: l2 /\ is_code c = true /\
        ran o = map cw_id (filter is_code l1) ++ [cw_id c] /\
        exists l1' c',
          children (snd (on_button_pressed "run-all" self)) = l1' ++ c' :: l2 /\
          length l1' = length l1
  end.
Proof.
  intro o. pose proof (run_children_spec (children self) (notebook_kernel self)) as S.
  fold o in S. cbv zeta in S.
  change (on_button_pressed "run-all" self) with (run_all self).
  unfold run_all, bind, get, modify. simpl. fold o.
  destruct (raised o) as [e|]; simpl.
  - split; [reflexivity|]. exact S.
  - split; [reflexivity|]. exact S.
Qed.

End RunAll.

(** ** More on [os.path.splitext] and the paths that validate *)

Section Paths.
Context `{Collaborators}.

Lemma substring_whole (p : string) : substring 0 (String.length p) p = p.
Proof. induction p as [|a s IH]; simpl; [reflexivity|now rewrite IH]. Qed.

(** Cutting a string at any index loses nothing. *)
Lemma slices_join (p : string) (n : nat) :
  (substring 0 n p ++ substring n (String.length p - n) p)%string = p.
Proof.
  revert n. induction p as [|a s IH]; intro n.
  - destruct n; reflexivity.
  - destruct n as [|n]; simpl.
    + now rewrite substring_whole.
    + now rewrite IH.
Qed.

Lemma append_empty (p : string) : (p ++ "")%string = p.
Proof. induction p as [|a s IH]; simpl; [reflexivity|now rewrite IH]. Qed.

(** [root + ext == p] for [root, ext = os.path.splitext(p)], whatever the
    path. *)
Lemma splitext_join (p : string) :
  (fst (splitext p) ++ snd (splitext p))%string = p.
Proof.
  unfold splitext, _splitext.
  destruct (_ >? _)%Z; [|apply append_empty].
  destruct (skip_leading_dots _ _ _ _); [|apply append_empty].
  apply slices_join.
Qed.

End Paths.

(** ** Validity, display and the file system under the event loop *)

Section EventLoop.
Context `{Collaborators}.

Lemma assign_valid_notebook_false (self : Notebook) :
  valid_notebook (snd (assign_valid_notebook false self)) = false.
Proof.
  unfold assign_valid_notebook, watch_valid_notebook, bind, get, modify, ret.
  simpl. destruct (Bool.eqb (valid_notebook self) false); reflexivity.
Qed.

(** [load_notebook] either leaves the flag alone or clears it. *)
Lemma load_notebook_valid_or_cleared (fs : filesystem) (self : Notebook) :
  valid_notebook (snd (load_notebook fs self)) = valid_notebook self \/
  valid_notebook (snd (load_notebook fs self)) = false.
Proof.
  rewrite load_notebook_unfold.
  destruct (String.eqb _ _); [now left|].
  destruct (negb (exists_ _ _)); [right; apply assign_valid_notebook_false|].
  destruct (negb (String.eqb _ _)); [right; apply assign_valid_notebook_false|].
  left. now apply read_cells_keeps.
Qed.

Lemma handle_valid_or_cleared (e : event) (world : filesystem * Notebook) :
  valid_notebook (snd (handle e world)) = valid_notebook (snd world) \/
  valid_notebook (snd (handle e world)) = false.
Proof.
  destruct world as [fs self]. destruct e; simpl;
    try (left; reflexivity).
  - apply load_notebook_valid_or_cleared.
  - left. unfold on_descendant_focus, modify, raise, ret.
    destruct (w_class w); simpl; auto; destruct (parent w); reflexivity.
  - left. now apply on_button_pressed_keeps.
  - left. unfold action_add_cell_after.
    apply keeps_bind; [now apply add_cell_keeps|intro; apply keeps_ret].
  - left. unfold action_add_cell_before.
    apply keeps_bind; [now apply add_cell_keeps|intro; apply keeps_ret].
  - left. unfold action_delete_cell, bind, get, modify; simpl.
    destruct (last_focused self); reflexivity.
Qed.

(** X2: a notebook that is invalid stays invalid: no handler sets
    [valid_notebook] back to [True]. *)
Theorem invalid_notebook_stays_invalid (events : list event)
        (fs : filesystem) (self : Notebook) :
  valid_notebook self = false ->
  valid_notebook (snd (run_events events (fs, self))) = false.
Proof.
  unfold run_events.
  change self with (snd (fs, self)) at 1. generalize (fs, self) as world.
  induction events as [|e rest IH]; intros world V; simpl; [exact V|].
  apply IH. destruct (handle_valid_or_cleared e world) as [E|E]; congruence.
Qed.

Lemma assign_valid_notebook_display (v : bool) (self : Notebook) :
  display_matches self -> display_matches (snd (assign_valid_notebook v self)).
Proof.
  unfold display_matches, assign_valid_notebook, watch_valid_notebook,
    bind, get, modify, ret. simpl. intro D.
  destruct (valid_notebook self), v; simpl; auto.
Qed.

Lemma handle_display_matches (e : event) (world : filesystem * Notebook) :
  display_matches (snd world) -> display_matches (snd (handle e world)).
Proof.
  destruct world as [fs self]. simpl. intro D.
  assert (K : forall (m : M unit),
             keeps (fun s => (display s, valid_notebook s)) m ->
             display_matches (snd (m self))).
  { intros m Km. specialize (Km self). unfold display_matches in *.
    injection Km as -> ->. exact D. }
  destruct e; simpl; try exact D.
  - rewrite load_notebook_unfold.
    destruct (String.eqb _ _); [exact D|].
    destruct (negb (exists_ _ _)); [now apply assign_valid_notebook_display|].
    destruct (negb (String.eqb _ _)); [now apply assign_valid_notebook_display|].
    apply K. now apply read_cells_keeps.
  - apply K. intro s. unfold on_descendant_focus, modify, raise, ret.
    destruct (w_class w); simpl; auto; destruct (parent w); reflexivity.
  - apply K. now apply on_button_pressed_keeps.
  - apply K. unfold action_add_cell_after.
    apply keeps_bind; [now apply add_cell_keeps|intro; apply keeps_ret].
  - apply K. unfold action_add_cell_before.
    apply keeps_bind; [now apply add_cell_keeps|intro; apply keeps_ret].
  - apply K. intro s. unfold action_delete_cell, bind, get, modify; simpl.
    destruct (last_focused s); reflexivity.
Qed.

(** X3: from the opening of the notebook on, the notice is displayed exactly
    when the notebook is invalid, and the button row, the rule and the cell
    container exactly when it is valid. *)
Theorem display_follows_validity (fs : filesystem) (p : string) (events : list event) :
  let self := snd (run_events events (fs, __init__ p)) in
  show_Label (display self) = negb (valid_notebook self) /\
  show_ButtonRow (display self) = valid_notebook self /\
  show_Rule (display self) = valid_notebook self /\
  show_VerticalScroll (display self) = valid_notebook self.
Proof.
  intro self.
  assert (D : display_matches self).
  { unfold self, run_events.
    assert (G : forall world, display_matches (snd world) ->
              display_matches (snd (fold_left (fun w e => handle e w) events world))).
    { induction events as [|e rest IH]; intros world I; simpl; [exact I|].
      apply IH, handle_display_matches, I. }
    apply G. reflexivity. }
  unfold display_matches in D. rewrite D. repeat split.
Qed.

Lemma handle_writes_own_path (e : event) (fs : filesystem) (self : Notebook)
      (q : string) :
  path self = "new_empty_terminal_notebook" \/ q <> path self ->
  fst (handle e (fs, self)) q = fs q.
Proof.
  intro Hq. destruct e; simpl; try reflexivity.
  unfold action_save.
  destruct (String.eqb_spec (path self) "new_empty_terminal_notebook") as [Hs|Hs];
    [reflexivity|].
  destruct Hq as [Hq|Hq]; [contradiction|].
  unfold open_json_dump.
  destruct (fs (path self)) as [[|text|e]|]; try reflexivity;
    destruct (refuses_write fs (path self)); try reflexivity;
    destruct (String.eqb_spec q (path self)); try contradiction; reflexivity.
Qed.

Lemma run_events_writes_own_path (events : list event) (fs : filesystem)
      (self : Notebook) (q : string) :
  path self = "new_empty_terminal_notebook" \/ q <> path self ->
  fst (run_events events (fs, self)) q = fs q.
Proof.
  unfold run_events. revert fs self.
  induction events as [|e rest IH]; intros fs self Hq; [reflexivity|].
  cbn [fold_left]. destruct (handle e (fs, self)) as [fs1 self1] eqn:E.
  assert (P : path self1 = path self).
  { change self1 with (snd (fs1, self1)). rewrite <- E.
    now apply (handle_keeps path). }
  rewrite IH by (now rewrite P).
  change fs1 with (fst (fs1, self1)). rewrite <- E.
  now apply handle_writes_own_path.
Qed.

(** X4: the handlers write no file but the notebook's own: every other path of
    the file system is as it was, and a new unsaved notebook writes
    nothing at all (saving it only opens the save-as screen). *)
Theorem only_own_path_is_written (fs : filesystem) (p q : string)
        (events : list event) :
  p = "new_empty_terminal_notebook" \/ q <> p ->
  fst (run_events events (fs, __init__ p)) q = fs q.
Proof. intro Hq. now apply run_events_writes_own_path. Qed.

End EventLoop.

(** ** Editing the cell sequence *)

Section Editing.
Context `{Collaborators}.

(** X6: [add_cell] fails exactly when the focused widget is no child of the
    cell container and has no parent, as a cell that was removed; it then
    raises [MountError] (from [mount]) and leaves the cells and the focus as
    they were.  With a focused widget that hangs outside the cell container
    [add_cell] returns and the cells of the container are as they were: the
    new widget has gone beside the focused one. *)
Theorem add_cell_fails_iff_focus_detached (t : cell_type) (pos : position)
        (self : Notebook) :
  ((exists e, fst (add_cell t pos self) = Raise e) <->
   (exists a, last_focused self = Some a /\ index a (children self) = None /\
              parent a = None)) /\
  (forall e, fst (add_cell t pos self) = Raise e ->
             e = MountError /\
             children (snd (add_cell t pos self)) = children self /\
             last_focused (snd (add_cell t pos self)) = last_focused self) /\
  (forall a, last_focused self = Some a -> index a (children self) = None ->
             parent a <> None ->
             (exists w, fst (add_cell t pos self) = Ok w) /\
             children (snd (add_cell t pos self)) = children self).
Proof.
  rewrite add_cell_unfold. cbv zeta.
  destruct (last_focused self) as [a|] eqn:F.
  - destruct (index a (children self)) as [i|] eqn:I.
    + destruct pos; unfold mount; rewrite I; simpl; (split; [split|split]).
      all: try (intros [e E]; discriminate E).
      all: try (intros (b & B & N & _); injection B as <-; congruence).
      all: try (intros e E; discriminate E).
      all: intros b B N; injection B as <-; congruence.
    + destruct (parent a) as [q|] eqn:P.
      * destruct pos; unfold mount, mount_elsewhere; rewrite I, P; simpl;
          (split; [split|split]).
        all: try (intros [e E]; discriminate E).
        all: try (intros (b & B & _ & N); injection B as <-; congruence).
        all: try (intros e E; discriminate E).
        all: intros b _ _ _; split; [eexists; reflexivity|reflexivity].
      * destruct pos; unfold mount, mount_elsewhere; rewrite I, P; simpl;
          (split; [split|split]).
        all: try (intros _; exists a; now repeat split).
        all: try (intros _; now exists MountError).
        all: try (intros e E; injection E as <-; repeat split; exact F).
        all: intros b B _ N; injection B as <-; congruence.
  - destruct pos; unfold mount; simpl; (split; [split|split]).
    all: try (intros [e E]; discriminate E).
    all: try (intros (b & B & _); discriminate B).
    all: try (intros e E; discriminate E).
    all: intros b B; discriminate B.
Qed.

Lemma remove_not_there (w : widget) (nodes : list cell_widget) :
  (forall c, In c nodes -> same_widget (ref c) w = false) ->
  remove w nodes = nodes.
Proof.
  induction nodes as [|c rest IH]; intro N; simpl; [reflexivity|].
  rewrite (N c (or_introl eq_refl)). simpl. rewrite IH; [reflexivity|].
  intros d D. apply N. now right.
Qed.

Lemma same_widget_ids (a b : cell_widget) :
  cw_id a <> cw_id b -> same_widget (ref a) (ref b) = false.
Proof.
  intro N. unfold same_widget, ref; simpl.
  apply andb_false_iff. right. now apply Nat.eqb_neq.
Qed.

(** X7: on a notebook without a focus, adding a cell and deleting right away
    gives back the cells that were there, and again no focus: the new cell
    had become the focus. *)
Theorem add_then_delete_restores (t : cell_type) (pos : position) (self : Notebook) :
  last_focused self = None ->
  Forall (fun c => cw_id c < next_id self) (children self) ->
  let added := snd (add_cell t pos self) in
  let deleted := snd (action_delete_cell added) in
  (exists w, fst (add_cell t pos self) = Ok w) /\
  length (children added) = S (length (children self)) /\
  children deleted = children self /\
  last_focused deleted = None.
Proof.
  intros F Hfresh added deleted. subst deleted added.
  rewrite add_cell_unfold. cbv zeta. rewrite F.
  assert (R : remove (ref (CellWidget (next_id self) (new_cell t)))
                (children self ++ [CellWidget (next_id self) (new_cell t)])
              = children self).
  { unfold remove. rewrite filter_app. simpl.
    replace (same_widget _ _) with true
      by (symmetry; now apply same_widget_eq).
    simpl. rewrite app_nil_r. apply remove_not_there.
    intros c C. apply same_widget_ids. rewrite Forall_forall in Hfresh.
    specialize (Hfresh c C). simpl. lia. }
  destruct pos; unfold mount; simpl;
    (split; [eexists; reflexivity|]);
    (split; [rewrite length_app; simpl; lia|]);
    unfold action_delete_cell, bind, get, modify; simpl;
    (split; [exact R|reflexivity]).
Qed.

Lemma remove_middle (l1 l2 : list cell_widget) (c : cell_widget) :
  NoDup (map cw_id (l1 ++ c :: l2)) ->
  remove (ref c) (l1 ++ c :: l2) = l1 ++ l2.
Proof.
  intro N. unfold remove. rewrite filter_app. simpl.
  replace (same_widget (ref c) (ref c)) with true
    by (symmetry; now apply same_widget_eq).
  simpl. rewrite map_app in N. simpl in N.
  pose proof (NoDup_remove_2 _ _ _ N) as Nc.
  f_equal; apply remove_not_there; intros d D; apply same_widget_ids;
    intro E; apply Nc, in_or_app; [left|right]; rewrite <- E; now apply in_map.
Qed.

(** X8: with distinct identities in the sequence, deleting the focused cell
    takes out that one cell: the cells before it and behind it stay, in
    their order. *)
Theorem action_delete_cell_removes_one (self : Notebook)
        (l1 l2 : list cell_widget) (c : cell_widget) :
  children self = l1 ++ c :: l2 ->
  last_focused self = Some (ref c) ->
  NoDup (map cw_id (children self)) ->
  children (snd (action_delete_cell self)) = l1 ++ l2.
Proof.
  intros E F N. unfold action_delete_cell, bind, get, modify. rewrite F. simpl.
  rewrite E in *. now apply remove_middle.
Qed.


End Editing.

(** ** What a load mounts and what it raises *)

Section LoadResults.
Context `{Collaborators}.

Lemma CodeCell_from_nb_result (record : json) :
  match CodeCell_from_nb record with
  | Ok state => kind state = CodeCell
  | Raise e => e = CorruptDocumentError
  end.
Proof.
  unfold CodeCell_from_nb.
  destruct (field record "source") as [[]|]; try reflexivity;
    destruct (field record "execution_count") as [[]|]; try reflexivity;
    destruct (field record "outputs") as [[]|]; reflexivity.
Qed.

Lemma MarkdownCell_from_nb_result (record : json) :
  match MarkdownCell_from_nb record with
  | Ok state => kind state = MarkdownCell
  | Raise e => e = CorruptDocumentError
  end.
Proof.
  unfold MarkdownCell_from_nb.
  destruct (field record "source") as [[]|]; reflexivity.
Qed.

(** One pass of the loop body that returns has put the cell of the record,
    if any, behind the others. *)
Lemma load_cell_result (cell : json) (self : Notebook) :
  match load_cell cell self with
  | (Ok _, self') =>
      kinds self' = kinds self ++
                    match record_kind cell with Some t => [t] | None => [] end
  | (Raise e, self') => kinds self' = kinds self
  end.
Proof.
  unfold load_cell, record_kind, kinds, bind, lift, construct,
    cell_container_mount, get, modify, ret.
  destruct (getitem cell "cell_type") as [t|e] eqn:G; simpl; [|reflexivity].
  destruct (eq_str t "code").
  - pose proof (CodeCell_from_nb_result cell) as R.
    destruct (CodeCell_from_nb cell); simpl; [|reflexivity].
    rewrite map_app. simpl. now rewrite R.
  - simpl. destruct (eq_str t "markdown").
    + pose proof (MarkdownCell_from_nb_result cell) as R.
      destruct (MarkdownCell_from_nb cell); simpl; [|reflexivity].
      rewrite map_app. simpl. now rewrite R.
    + simpl. now rewrite app_nil_r.
Qed.

Lemma load_cells_result (cells : list json) (self self' : Notebook) :
  load_cells cells self = (Ok tt, self') ->
  kinds self' = kinds self ++ record_kinds cells.
Proof.
  revert self. induction cells as [|cell rest IH]; intro self; simpl.
  - intro E. injection E as <-. now rewrite app_nil_r.
  - unfold bind. pose proof (load_cell_result cell self) as R.
    destruct (load_cell cell self) as [[[]|e] self1]; [|discriminate].
    intro E. rewrite (IH self1 E), R, <- app_assoc. f_equal.
    now destruct (record_kind cell).
Qed.

(** X10: a load that returns has mounted one cell for each record of type [code]
    or [markdown], in the order of the file and of the class of the record;
    the other records have left nothing. *)
Theorem load_notebook_mounts_known_records (fs : filesystem) (p : string)
        (content : json) (cells : list json) (self : Notebook) :
  String.eqb p "new_empty_terminal_notebook" = false ->
  fs p = Some (File (Some content)) ->
  snd (splitext p) = ".ipynb" ->
  getitem content "cells" = Ok (JList cells) ->
  load_notebook fs (__init__ p) = (Ok tt, self) ->
  kinds self = record_kinds cells.
Proof.
  intros Hs Hf Hx Hc L.
  rewrite (load_notebook_on_file fs p content Hs Hf Hx) in L.
  unfold bind at 1, lift at 1 in L. rewrite Hc in L.
  unfold bind at 1, lift at 1, iter in L.
  exact (load_cells_result cells (__init__ p) self L).
Qed.

(** X11: [load_notebook] raises only on a path that has passed the three
    guards: it is not the name of a new notebook, it exists and it has the
    extension [.ipynb].  The notebook is then still marked valid and still
    has no focus.  On a path that fails a guard the file is never opened and
    the method returns. *)
Theorem load_notebook_raises_only_after_guards (fs : filesystem) (p : string) (e : exn) :
  fst (load_notebook fs (__init__ p)) = Raise e ->
  valid_notebook (snd (load_notebook fs (__init__ p))) = true /\
  last_focused (snd (load_notebook fs (__init__ p))) = None /\
  p <> "new_empty_terminal_notebook" /\
  exists_ fs p = true /\ snd (splitext p) = ".ipynb".
Proof.
  intro E. split; [|split].
  2:{ now rewrite (load_notebook_keeps last_focused fs). }
  - revert E. rewrite load_notebook_unfold. simpl path.
    destruct (String.eqb p "new_empty_terminal_notebook"); [discriminate|].
    destruct (negb (exists_ fs p)).
    { unfold assign_valid_notebook, watch_valid_notebook, bind, get, modify, ret.
      simpl. discriminate. }
    destruct (negb (String.eqb (snd (splitext p)) ".ipynb")).
    { unfold assign_valid_notebook, watch_valid_notebook, bind, get, modify, ret.
      simpl. discriminate. }
    intros _. now rewrite (read_cells_keeps valid_notebook fs p).
  - revert E. rewrite load_notebook_unfold. simpl path.
    destruct (String.eqb_spec p "new_empty_terminal_notebook") as [Hs|Hs];
      [discriminate|].
    destruct (exists_ fs p) eqn:He; simpl negb; cbv iota.
    2:{ unfold assign_valid_notebook, watch_valid_notebook, bind, get, modify, ret.
        simpl. discriminate. }
    destruct (String.eqb_spec (snd (splitext p)) ".ipynb") as [Hx|Hx];
      simpl negb; cbv iota.
    2:{ unfold assign_valid_notebook, watch_valid_notebook, bind, get, modify, ret.
        simpl. discriminate. }
    intros _. auto.
Qed.

End LoadResults.

(** ** More on run all *)

Section RunAllFrame.
Context `{Collaborators}.

(** The loop hands back the same widgets in the same places, and a cell
    that is no code cell as it was. *)
Lemma run_children_frame (nodes : list cell_widget) (k : kernel) :
  Forall2 (fun c c' => cw_id c' = cw_id c /\ (is_code c = false -> c' = c))
          nodes (children_after (run_children k nodes)).
Proof.
  revert k. induction nodes as [|child rest IH]; intro k; simpl; [constructor|].
  destruct (is_code child) eqn:Hc.
  - destruct (run_cell k (cw_state child)) as [[[e|] k'] state']; simpl.
    + constructor; [split; [reflexivity|intro; congruence]|].
      clear. induction rest; constructor; auto.
    + constructor; [split; [reflexivity|intro; congruence]|apply IH].
  - simpl. constructor; [split; reflexivity|apply IH].
Qed.

(** X12: the run-all button, whether it returns or raises, leaves every cell in
    its place with its identity, leaves the cells that are no code cells as
    they were, and leaves the focus, the path and the validity alone. *)
Theorem run_all_changes_code_cells_only (self : Notebook) :
  let self' := snd (on_button_pressed "run-all" self) in
  Forall2 (fun c c' => cw_id c' = cw_id c /\ (is_code c = false -> c' = c))
          (children self) (children self') /\
  last_focused self' = last_focused self /\
  path self' = path self /\
  valid_notebook self' = valid_notebook self.
Proof.
  intro self'. subst self'.
  change (on_button_pressed "run-all" self) with (run_all self).
  unfold run_all, bind, get, modify. simpl.
  split; [|destruct (raised _); repeat split].
  destruct (raised _); simpl; apply run_children_frame.
Qed.

(** X13: when no run raises, the runs are chained in document order: each code
    cell runs on the kernel as the code cell before it left it. *)
Theorem run_all_threads_the_kernel (self : Notebook) :
  fst (on_button_pressed "run-all" self) = Ok tt ->
  notebook_kernel (snd (on_button_pressed "run-all" self)) =
  fold_left kernel_step (filter is_code (children self)) (notebook_kernel self).
Proof.
  change (on_button_pressed "run-all" self) with (run_all self).
  unfold run_all, bind, get, modify. simpl.
  assert (G : forall nodes k,
             raised (run_children k nodes) = None ->
             kernel_after (run_children k nodes) =
             fold_left kernel_step (filter is_code nodes) k).
  { induction nodes as [|child rest IH]; intros k; [reflexivity|].
    cbn [run_children filter].
    destruct (is_code child) eqn:Hc; [|apply IH].
    cbn [fold_left].
    change (kernel_step k child) with (snd (fst (run_cell k (cw_state child)))).
    destruct (run_cell k (cw_state child)) as [[[e|] k'] state']; simpl;
      [discriminate|apply IH]. }
  specialize (G (children self) (notebook_kernel self)).
  destruct (raised _); simpl; [discriminate|]. intros _. now apply G.
Qed.

End RunAllFrame.

(** ** Identities of the cells *)

Section Identities.
Context `{Collaborators}.

(** [ids_fresh] on the list of identities. *)
Lemma ids_fresh_iff (self : Notebook) :
  ids_fresh self <->
  NoDup (map cw_id (children self)) /\
  Forall (fun i => i < next_id self) (map cw_id (children self)).
Proof. unfold ids_fresh. now rewrite Forall_map. Qed.

Lemma insert_at_perm (i : nat) (w : cell_widget) (nodes : list cell_widget) :
  Permutation (w :: nodes) (insert_at i w nodes).
Proof.
  unfold insert_at. rewrite <- (firstn_skipn i nodes) at 1.
  apply Permutation_middle.
Qed.

(** A mount that returns has put the widget among the children, or, for a
    spot outside the cell container, has left the children alone. *)
Lemma mount_perm (nodes nodes' : list cell_widget) (w : cell_widget)
      (b a : option widget) :
  mount nodes w b a = Ok nodes' ->
  Permutation (w :: nodes) nodes' \/
  (nodes' = nodes /\ (b <> None \/ a <> None)).
Proof.
  unfold mount, mount_elsewhere.
  destruct b as [sb|], a as [sa|]; try discriminate.
  - destruct (index sb nodes).
    + intro E; injection E as <-. left. apply insert_at_perm.
    + destruct (parent sb); [|discriminate].
      intro E; injection E as <-. right. split; [reflexivity|left; discriminate].
  - destruct (index sa nodes).
    + intro E; injection E as <-. left. apply insert_at_perm.
    + destruct (parent sa); [|discriminate].
      intro E; injection E as <-. right. split; [reflexivity|right; discriminate].
  - intro E; injection E as <-. left. apply Permutation_cons_append.
Qed.

(** Mounting a newly constructed widget keeps the identities distinct. *)
Lemma fresh_after_mount (n : nat) (state : cell_state)
      (nodes nodes' : list cell_widget) :
  NoDup (map cw_id nodes) -> Forall (fun i => i < n) (map cw_id nodes) ->
  Permutation (CellWidget n state :: nodes) nodes' ->
  NoDup (map cw_id nodes') /\ Forall (fun i => i < S n) (map cw_id nodes').
Proof.
  intros N F P. apply (Permutation_map cw_id) in P. simpl in P. split.
  - apply (Permutation_NoDup P). constructor; [|exact N].
    intro I. rewrite Forall_forall in F. specialize (F n I). lia.
  - apply (Permutation_Forall P). constructor; [lia|].
    apply (Forall_impl _ (P:=fun i => i < n)); [intros; lia|exact F].
Qed.

Lemma fresh_weaken (n : nat) (ids : list nat) :
  Forall (fun i => i < n) ids -> Forall (fun i => i < S n) ids.
Proof. apply Forall_impl. intros; lia. Qed.

Lemma add_cell_ids_fresh (t : cell_type) (pos : position) (self : Notebook) :
  ids_fresh self -> ids_fresh (snd (add_cell t pos self)).
Proof.
  rewrite !ids_fresh_iff. intros [N F]. rewrite add_cell_unfold. cbv zeta.
  destruct pos;
    match goal with |- context [mount ?a ?b ?c ?d] =>
      destruct (mount a b c d) as [nodes'|e] eqn:E end; simpl.
  all: try (split; [exact N|now apply fresh_weaken]).
  all: apply mount_perm in E as [E|[-> _]];
    [destruct (fresh_after_mount _ _ _ _ N F E) as [N' F'];
     destruct (last_focused self); simpl; split; assumption
    |destruct (last_focused self); simpl; split;
     [exact N|now apply fresh_weaken|exact N|now apply fresh_weaken]].
Qed.

Lemma load_cell_ids_fresh (cell : json) (self : Notebook) :
  ids_fresh self -> ids_fresh (snd (load_cell cell self)).
Proof.
  intro I.
  assert (G : forall state,
    ids_fresh (snd ((w <- construct state ;; cell_container_mount w None None) self))).
  { intro state. apply ids_fresh_iff. apply ids_fresh_iff in I as [N F].
    unfold construct, cell_container_mount, bind, get, modify, lift, ret.
    simpl. apply (fresh_after_mount _ state (children self)); auto.
    apply Permutation_cons_append. }
  unfold load_cell. unfold bind at 1, lift at 1.
  destruct (getitem cell "cell_type") as [t|e]; [|exact I].
  destruct (eq_str t "code").
  - unfold bind at 1, lift at 1.
    destruct (CodeCell_from_nb cell) as [state|e]; [exact (G state)|exact I].
  - unfold bind at 1, lift at 1.
    destruct (eq_str t "markdown"); [|exact I].
    unfold bind at 1, lift at 1.
    destruct (MarkdownCell_from_nb cell) as [state|e]; [exact (G state)|exact I].
Qed.

Lemma load_cells_ids_fresh (cells : list json) (self : Notebook) :
  ids_fresh self -> ids_fresh (snd (load_cells cells self)).
Proof.
  revert self. induction cells as [|cell rest IH]; intros self I; simpl; [exact I|].
  unfold bind. pose proof (load_cell_ids_fresh cell self I) as J.
  destruct (load_cell cell self) as [[[]|e] self1]; simpl in *; [now apply IH|exact J].
Qed.

Lemma run_children_ids (nodes : list cell_widget) (k : kernel) :
  map cw_id (children_after (run_children k nodes)) = map cw_id nodes.
Proof.
  pose proof (run_children_frame nodes k) as F.
  induction F as [|c c' l l' [E _] _ IH]; simpl; [reflexivity|].
  now rewrite E, IH.
Qed.

Lemma filter_ids_fresh (f : cell_widget -> bool) (n : nat) (nodes : list cell_widget) :
  NoDup (map cw_id nodes) -> Forall (fun i => i < n) (map cw_id nodes) ->
  NoDup (map cw_id (filter f nodes)) /\
  Forall (fun i => i < n) (map cw_id (filter f nodes)).
Proof.
  induction nodes as [|c rest IH]; simpl; intros N F; [now split|].
  inversion N as [|? ? Nc Nr]; subst. inversion F as [|? ? Fc Fr]; subst.
  destruct (IH Nr Fr) as [N' F'].
  destruct (f c); simpl; [|now split]. split.
  - constructor; [|exact N']. intro I. apply Nc.
    apply in_map_iff in I as (d & E & D). apply filter_In in D as [D _].
    rewrite <- E. now apply in_map.
  - now constructor.
Qed.

Lemma handle_ids_fresh (e : event) (world : filesystem * Notebook) :
  ids_fresh (snd world) -> ids_fresh (snd (handle e world)).
Proof.
  destruct world as [fs self]. simpl. intro I.
  assert (B : forall t pos,
             ids_fresh (snd ((add_cell t pos ;; ret tt) self))).
  { intros t pos. unfold bind. pose proof (add_cell_ids_fresh t pos self I) as J.
    destruct (add_cell t pos self) as [[]]; exact J. }
  destruct e; simpl; try exact I.
  - rewrite load_notebook_unfold.
    destruct (String.eqb _ _); [exact I|].
    destruct (negb (exists_ _ _)).
    { unfold assign_valid_notebook, watch_valid_notebook, bind, get, modify, ret.
      simpl. destruct (Bool.eqb _ _); exact I. }
    destruct (negb (String.eqb _ _)).
    { unfold assign_valid_notebook, watch_valid_notebook, bind, get, modify, ret.
      simpl. destruct (Bool.eqb _ _); exact I. }
    unfold bind at 1, lift at 1.
    destruct (open_json_load fs (path self)) as [content|]; [|exact I].
    unfold bind at 1, lift at 1.
    destruct (getitem content "cells") as [cells|]; [|exact I].
    unfold bind at 1, lift at 1.
    destruct (iter cells) as [items|]; [|exact I].
    now apply load_cells_ids_fresh.
  - unfold on_descendant_focus, modify, raise, ret.
    destruct (w_class w); simpl; try exact I; destruct (parent w); exact I.
  - unfold on_button_pressed.
    repeat match goal with |- context [if ?c then _ else _] => destruct c end;
      try apply B; try exact I.
    apply ids_fresh_iff. apply ids_fresh_iff in I as [N F].
    unfold run_all, bind, get, modify. simpl.
    destruct (raised _); simpl; rewrite run_children_ids; now split.
  - apply B.
  - apply B.
  - apply ids_fresh_iff. apply ids_fresh_iff in I as [N F].
    unfold action_delete_cell, bind, get, modify. simpl.
    destruct (last_focused self); simpl; [|now split].
    now apply filter_ids_fresh.
Qed.

(** X14: from the opening of the notebook on, whatever happens, no widget is in
    the cell sequence twice: the cells have pairwise distinct identities. *)
Theorem cells_stay_distinct (fs : filesystem) (p : string) (events : list event) :
  NoDup (map cw_id (children (snd (run_events events (fs, __init__ p))))).
Proof.
  assert (G : forall world, ids_fresh (snd world) ->
                            ids_fresh (snd (run_events events world))).
  { unfold run_events.
    induction events as [|e rest IH]; intros world I; simpl; [exact I|].
    apply IH, handle_ids_fresh, I. }
  apply (G (fs, __init__ p)). split; constructor.
Qed.

End Identities.

(** ** The focus stays in the sequence *)

Section FocusInSequence.
Context `{Collaborators}.
Hypothesis keeps_kind : run_cell_keeps_kind.

Lemma index_in (a : widget) (nodes : list cell_widget) :
  index a nodes <> None <-> In a (map ref nodes).
Proof.
  induction nodes as [|c rest IH]; simpl; [tauto|].
  destruct (same_widget (ref c) a) eqn:S.
  - apply same_widget_eq in S. split; [now left|discriminate].
  - assert (N : ref c <> a) by (intro E; apply same_widget_eq in E; congruence).
    destruct (index a rest) as [i|].
    + split; [|discriminate]. intros _. right. apply IH. discriminate.
    + split; [intro X; now elim X|].
      intros [E|I]; [contradiction|]. apply IH in I. now elim I.
Qed.

Lemma focus_in_sequence_iff (self : Notebook) :
  focus_in_sequence self <-> focus_in (last_focused self) (children self).
Proof.
  unfold focus_in_sequence, focus_in. destruct (last_focused self); [apply index_in|tauto].
Qed.

Lemma focus_in_incl (focus : option widget) (l l' : list cell_widget) :
  incl (map ref l) (map ref l') -> focus_in focus l -> focus_in focus l'.
Proof. destruct focus; simpl; auto. Qed.

Lemma add_cell_focus_in_sequence (t : cell_type) (pos : position) (self : Notebook) :
  focus_in_sequence self -> focus_in_sequence (snd (add_cell t pos self)).
Proof.
  rewrite !focus_in_sequence_iff. intro I. rewrite add_cell_unfold. cbv zeta.
  destruct (last_focused self) as [a|] eqn:F.
  - destruct pos;
      match goal with |- context [mount ?a ?b ?c ?d] =>
        destruct (mount a b c d) as [nodes'|e] eqn:E end;
      cbn [snd last_focused children set_children set_next_id set_last_focused];
      rewrite ?F; try exact I.
    all: apply mount_perm in E as [E|[-> _]]; [|exact I].
    all: apply (Permutation_map ref) in E; apply (Permutation_in _ E); now right.
  - destruct pos; unfold mount; simpl; rewrite map_app; apply in_or_app;
      right; now left.
Qed.

Lemma load_cell_extends (cell : json) (self : Notebook) :
  last_focused (snd (load_cell cell self)) = last_focused self /\
  incl (map ref (children self)) (map ref (children (snd (load_cell cell self)))).
Proof.
  split; [now apply load_cell_keeps|].
  assert (G : forall state,
    incl (map ref (children self))
      (map ref (children (snd ((w <- construct state ;;
                                cell_container_mount w None None) self))))).
  { intro state.
    unfold construct, cell_container_mount, bind, get, modify, lift, ret.
    simpl. rewrite map_app. now apply incl_appl, incl_refl. }
  unfold load_cell. unfold bind at 1, lift at 1.
  destruct (getitem cell "cell_type") as [t|e]; [|apply incl_refl].
  destruct (eq_str t "code").
  - unfold bind at 1, lift at 1.
    destruct (CodeCell_from_nb cell) as [state|e]; [exact (G state)|apply incl_refl].
  - unfold bind at 1, lift at 1.
    destruct (eq_str t "markdown"); [|apply incl_refl].
    unfold bind at 1, lift at 1.
    destruct (MarkdownCell_from_nb cell) as [state|e]; [exact (G state)|apply incl_refl].
Qed.

Lemma load_cells_focus_in_sequence (cells : list json) (self : Notebook) :
  focus_in_sequence self -> focus_in_sequence (snd (load_cells cells self)).
Proof.
  revert self. induction cells as [|cell rest IH]; intros self I; simpl; [exact I|].
  unfold bind. destruct (load_cell_extends cell self) as [F C].
  assert (J : focus_in_sequence (snd (load_cell cell self))).
  { apply focus_in_sequence_iff. rewrite F.
    apply (focus_in_incl _ _ _ C). now apply focus_in_sequence_iff. }
  destruct (load_cell cell self) as [[[]|e] self1]; simpl in *; [now apply IH|exact J].
Qed.

Lemma run_children_refs (nodes : list cell_widget) (k : kernel) :
  map ref (children_after (run_children k nodes)) = map ref nodes.
Proof.
  revert k. induction nodes as [|child rest IH]; intro k; simpl; [reflexivity|].
  destruct (is_code child).
  - pose proof (keeps_kind k (cw_state child)) as K.
    destruct (run_cell k (cw_state child)) as [[[e|] k'] state']; simpl in *.
    + f_equal. unfold ref. simpl. now rewrite K.
    + rewrite IH. f_equal. unfold ref. simpl. now rewrite K.
  - simpl. now rewrite IH.
Qed.

Lemma handle_focus_in_sequence (e : event) (world : filesystem * Notebook) :
  focus_event_in_tree (snd world) e ->
  focus_in_sequence (snd world) -> focus_in_sequence (snd (handle e world)).
Proof.
  destruct world as [fs self]. simpl. intros T I.
  assert (B : forall t pos,
             focus_in_sequence (snd ((add_cell t pos ;; ret tt) self))).
  { intros t pos. unfold bind.
    pose proof (add_cell_focus_in_sequence t pos self I) as J.
    destruct (add_cell t pos self) as [[]]; exact J. }
  destruct e; simpl; try exact I.
  - rewrite load_notebook_unfold.
    destruct (String.eqb _ _); [exact I|].
    destruct (negb (exists_ _ _)).
    { unfold assign_valid_notebook, watch_valid_notebook, bind, get, modify, ret.
      simpl. destruct (Bool.eqb _ _); exact I. }
    destruct (negb (String.eqb _ _)).
    { unfold assign_valid_notebook, watch_valid_notebook, bind, get, modify, ret.
      simpl. destruct (Bool.eqb _ _); exact I. }
    unfold bind at 1, lift at 1.
    destruct (open_json_load fs (path self)) as [content|]; [|exact I].
    unfold bind at 1, lift at 1.
    destruct (getitem content "cells") as [cells|]; [|exact I].
    unfold bind at 1, lift at 1.
    destruct (iter cells) as [items|]; [|exact I].
    now apply load_cells_focus_in_sequence.
  - simpl in T. unfold on_descendant_focus, modify, raise, ret.
    destruct (w_class w); simpl; try exact I.
    + exact T.
    + destruct (parent w) as [q|] eqn:P; simpl; [|exact I].
      unfold focus_in_sequence; simpl.
      destruct (parent q) as [g|] eqn:G; [apply (T q g); auto|exact Logic.I].
    + destruct (parent w) as [q|] eqn:P; simpl; [|exact I].
      unfold focus_in_sequence; simpl.
      destruct (parent q) as [g|] eqn:G; [apply (T q g); auto|exact Logic.I].
    + destruct (parent w) as [q|] eqn:P; simpl; [|exact I].
      unfold focus_in_sequence; simpl.
      destruct (parent q) as [g|] eqn:G; [apply (T q g); auto|exact Logic.I].
  - unfold on_button_pressed.
    repeat match goal with |- context [if ?c then _ else _] => destruct c end;
      try apply B; try exact I.
    apply focus_in_sequence_iff. apply focus_in_sequence_iff in I.
    unfold run_all, bind, get, modify. simpl.
    destruct (raised _); simpl; unfold focus_in in *;
      destruct (last_focused self); auto; now rewrite run_children_refs.
  - apply B.
  - apply B.
  - unfold focus_in_sequence, action_delete_cell, bind, get, modify. simpl.
    destruct (last_focused self) eqn:F; simpl; [exact Logic.I|now rewrite F].
Qed.

(** X15: when [run_cell] hands back a cell of the class it ran on and the focus
    events come from cells of the sequence, the focus is, after any sequence
    of events, empty or a cell of the sequence, and so [add_cell] finds its
    place and returns. *)
Theorem focus_stays_in_sequence (fs : filesystem) (p : string)
        (events : list event) :
  events_in_tree events (fs, __init__ p) ->
  let self := snd (run_events events (fs, __init__ p)) in
  focus_in_sequence self /\
  forall t pos, exists w, fst (add_cell t pos self) = Ok w.
Proof.
  assert (G : forall world,
             events_in_tree events world -> focus_in_sequence (snd world) ->
             focus_in_sequence (snd (run_events events world))).
  { unfold run_events.
    induction events as [|e rest IH]; intros world Tw Iw; simpl; [exact Iw|].
    destruct Tw as [Te Tr]. apply IH; [exact Tr|].
    now apply handle_focus_in_sequence. }
  intros T self.
  assert (I : focus_in_sequence self) by (apply G; [exact T|exact Logic.I]).
  split; [exact I|]. intros t pos. rewrite add_cell_unfold. cbv zeta.
  unfold focus_in_sequence in I.
  destruct (last_focused self) as [a|].
  - destruct (index a (children self)) eqn:X; [|congruence].
    destruct pos; unfold mount; rewrite X; eexists; reflexivity.
  - destruct pos; unfold mount; eexists; reflexivity.
Qed.

End FocusInSequence.

(** ** Which paths have the extension of a notebook *)

Section Extension.

Lemma rfind_from_absent (c : ascii) (p : string) (i last : Z) :
  occurs c p = false -> rfind_from c p i last = last.
Proof.
  revert i last. induction p as [|a rest IH]; simpl; intros i last O; [reflexivity|].
  apply orb_false_iff in O as [A O]. rewrite A. now apply IH.
Qed.

Lemma rfind_from_app_absent (c : ascii) (t a : string) (i last : Z) :
  occurs c t = false ->
  rfind_from c (a ++ t)%string i last = rfind_from c a i last.
Proof.
  intro O. revert i last. induction a as [|x a IH]; simpl; intros i last.
  - now apply rfind_from_absent.
  - apply IH.
Qed.

Lemma rfind_from_last (c : ascii) (b a : string) (i last : Z) :
  occurs c b = false ->
  rfind_from c (a ++ String c b)%string i last = (i + Z.of_nat (String.length a))%Z.
Proof.
  intro O. revert i last. induction a as [|x a IH]; simpl String.length; intros i last.
  - simpl. rewrite Ascii.eqb_refl, rfind_from_absent by exact O. lia.
  - simpl. rewrite IH. lia.
Qed.

(** The result of [rfind] is the default, or the index of an occurrence
    that no other follows. *)
Lemma rfind_from_decomp (c : ascii) (p : string) (i last : Z) :
  (rfind_from c p i last = last /\ occurs c p = false) \/
  (exists a b, p = (a ++ String c b)%string /\ occurs c b = false /\
               rfind_from c p i last = (i + Z.of_nat (String.length a))%Z).
Proof.
  revert i last. induction p as [|x rest IH]; intros i last; simpl.
  - left. now split.
  - destruct (Ascii.eqb_spec x c) as [->|N].
    + right. destruct (IH (i + 1)%Z i) as [[E O]|(a & b & -> & O & E)].
      * exists EmptyString, rest. repeat split; auto. simpl. lia.
      * exists (String c a), b. repeat split; auto. rewrite E. simpl String.length. lia.
    + destruct (IH (i + 1)%Z last) as [[E O]|(a & b & -> & O & E)].
      * left. now split.
      * right. exists (String x a), b. repeat split; auto.
        rewrite E. simpl String.length. lia.
Qed.

Lemma length_append (a b : string) :
  String.length (a ++ b)%string = String.length a + String.length b.
Proof. induction a as [|x a IH]; simpl; [reflexivity|now rewrite IH]. Qed.

Lemma rfind_range (c : ascii) (p : string) :
  (-1 <= rfind c p < Z.of_nat (String.length p))%Z.
Proof.
  unfold rfind. destruct (rfind_from_decomp c p 0 (-1)) as [[E _]|(a & b & -> & _ & E)];
    rewrite E; [lia|].
  rewrite length_append. simpl String.length. lia.
Qed.

Lemma substring_nothing (p : string) (i : nat) : substring i 0 p = "".
Proof. revert i. induction p as [|x p IH]; intros [|i]; simpl; auto. Qed.

Lemma substring_app_tail (a t : string) :
  substring (String.length a) (String.length (a ++ t)%string - String.length a)
            (a ++ t)%string = t.
Proof.
  induction a as [|x a IH]; simpl.
  - rewrite Nat.sub_0_r. apply substring_whole.
  - exact IH.
Qed.

Lemma substring_app_head (a t : string) (i n : nat) :
  i + n <= String.length a ->
  substring i n (a ++ t)%string = substring i n a.
Proof.
  revert i n. induction a as [|x a IH]; intros i n L; simpl in L.
  - assert (i = 0) by lia. assert (n = 0) by lia. subst. simpl.
    now rewrite substring_nothing.
  - destruct i as [|i]; simpl.
    + destruct n as [|n]; [reflexivity|]. f_equal. apply IH. lia.
    + apply IH. lia.
Qed.

Lemma substring_first (p : string) (i n : nat) :
  i < String.length p ->
  exists a, String.get i p = Some a /\
            substring i (S n) p = String a (substring (S i) n p).
Proof.
  revert i. induction p as [|x p IH]; intros i L; simpl in L; [lia|].
  destruct i as [|i]; simpl.
  - exists x. split; [reflexivity|]. now destruct p.
  - destruct (IH i) as (a & G & Hs); [lia|]. exists a. split; [exact G|].
    simpl in Hs. exact Hs.
Qed.

(** The loop over the leading dots finds out whether that stretch of the
    path is made of dots only. *)
Lemma skip_leading_dots_all_dots (p : string) (n i : nat) :
  i + n <= String.length p ->
  skip_leading_dots p "."%char (Z.of_nat i) n = negb (all_dots (substring i n p)).
Proof.
  revert i. induction n as [|n IH]; intros i L; simpl skip_leading_dots.
  - now rewrite substring_nothing.
  - rewrite Nat2Z.id. destruct (substring_first p i n) as (a & G & Hs); [lia|].
    rewrite G, Hs. simpl all_dots. destruct (Ascii.eqb a "."%char); [|reflexivity].
    simpl. replace (Z.of_nat i + 1)%Z with (Z.of_nat (S i)) by lia.
    apply IH. lia.
Qed.

(** The stretch between the last slash and the end of [root] is the
    basename of [root], also when something without a slash follows. *)
Lemma skip_is_basename (root t : string) :
  occurs "/"%char t = false ->
  let p := (root ++ t)%string in
  let s := rfind "/"%char p in
  skip_leading_dots p "."%char (s + 1)
    (Z.to_nat (Z.of_nat (String.length root) - (s + 1)))
  = negb (all_dots (basename root)).
Proof.
  intros O p s.
  assert (E : s = rfind "/"%char root)
    by (unfold s, p, rfind; now apply rfind_from_app_absent).
  pose proof (rfind_range "/"%char root) as R. rewrite <- E in R.
  unfold basename, slice_from. rewrite <- E.
  replace (s + 1)%Z with (Z.of_nat (Z.to_nat (s + 1))) at 1 by lia.
  rewrite skip_leading_dots_all_dots.
  - unfold p. rewrite substring_app_head by lia.
    do 3 f_equal. lia.
  - unfold p. rewrite length_append. lia.
Qed.

(** [os.path.splitext] gives a path the extension [.ipynb] exactly when the
    path is a root followed by [.ipynb] and the last component of the root
    has a character that is no dot: [work/nb.ipynb] has it, [work/.ipynb]
    and [work/..ipynb] have not. *)
Lemma splitext_ipynb_iff (p : string) :
  snd (splitext p) = ".ipynb" <->
  exists root, p = (root ++ ".ipynb")%string /\ all_dots (basename root) = false.
Proof.
  unfold splitext, _splitext. split.
  - pose proof (rfind_range "/"%char p) as Rs.
    assert (D : rfind "."%char p = (-1)%Z \/
                exists a b, p = (a ++ String "."%char b)%string /\
                            rfind "."%char p = Z.of_nat (String.length a)).
    { unfold rfind.
      destruct (rfind_from_decomp "."%char p 0 (-1)) as [[E _]|(a & b & Hp & _ & E)];
        [now left|right]. exists a, b. split; [exact Hp|]. rewrite E. lia. }
    destruct D as [D|(a & b & Hp & D)]; rewrite D.
    + destruct (_ >? _)%Z eqn:Hgt; [apply Z.gtb_lt in Hgt; lia|discriminate].
    + destruct (_ >? _)%Z eqn:Hgt; [|discriminate].
      destruct (skip_leading_dots _ _ _ _) eqn:Hsk; [|discriminate].
      simpl snd. intro Hext.
      assert (Hb : String "."%char b = ".ipynb").
      { rewrite <- Hext. unfold slice_from. rewrite Nat2Z.id.
        rewrite Hp. now rewrite substring_app_tail. }
      injection Hb as ->. exists a. split; [exact Hp|].
      subst p. pose proof (skip_is_basename a ".ipynb" eq_refl) as K.
      cbv zeta in K. rewrite K in Hsk.
      now destruct (all_dots (basename a)).
  - intros (root & -> & Hd).
    pose proof (rfind_range "/"%char root) as Rs.
    assert (Es : rfind "/"%char (root ++ ".ipynb") = rfind "/"%char root)
      by (unfold rfind; now apply rfind_from_app_absent).
    assert (Ed : rfind "."%char (root ++ ".ipynb") = Z.of_nat (String.length root))
      by (unfold rfind; now rewrite (rfind_from_last "." "ipynb")).
    pose proof (skip_is_basename root ".ipynb" eq_refl) as K. cbv zeta in K.
    rewrite Ed, K, Hd. rewrite Es.
    replace (_ >? _)%Z with true by (symmetry; apply Z.gtb_lt; lia).
    simpl. unfold slice_from. rewrite Nat2Z.id. apply substring_app_tail.
Qed.

End Extension.

Section AcceptedPaths.
Context `{Collaborators}.

(** X1: the paths that [load_notebook] leaves valid, spelled out: the name of a
    new notebook, and the existing paths made of a root followed by
    [.ipynb], where the last component of the root has a character that is
    no dot.  A file called [.ipynb], in whatever directory, is no notebook. *)
Theorem load_notebook_accepts (fs : filesystem) (p : string) :
  valid_notebook (snd (load_notebook fs (__init__ p))) = true <->
  p = "new_empty_terminal_notebook" \/
  (exists_ fs p = true /\
   exists root, p = (root ++ ".ipynb")%string /\ all_dots (basename root) = false).
Proof.
  rewrite <- splitext_ipynb_iff. rewrite load_notebook_unfold. simpl path.
  destruct (String.eqb_spec p "new_empty_terminal_notebook") as [Hs|Hs].
  - simpl. split; auto.
  - destruct (exists_ fs p) eqn:He; simpl negb; cbv iota.
    + destruct (String.eqb_spec (snd (splitext p)) ".ipynb") as [Hx|Hx];
        simpl negb; cbv iota.
      * rewrite (read_cells_keeps valid_notebook fs p); [|reflexivity|reflexivity].
        simpl. split; auto.
      * simpl. split; [discriminate|]. intros [?|[_ ?]]; contradiction.
    + simpl. split; [discriminate|]. intros [?|[? _]]; [contradiction|discriminate].
Qed.

End AcceptedPaths.

(** ** Adding several cells *)

Section RepeatedAdd.
Context `{Collaborators}.

Lemma index_app_here (c : cell_widget) (l1 l2 : list cell_widget) :
  index (ref c) l1 = None ->
  index (ref c) (l1 ++ c :: l2) = Some (length l1).
Proof.
  induction l1 as [|d l1 IH]; simpl; intro N.
  - replace (same_widget (ref c) (ref c)) with true
      by (symmetry; now apply same_widget_eq).
    reflexivity.
  - destruct (same_widget (ref d) (ref c)); [discriminate|].
    destruct (index (ref c) l1); [discriminate|]. now rewrite IH.
Qed.

Lemma add_after_focus (self : Notebook) (l1 l2 : list cell_widget) (c : cell_widget) :
  children self = l1 ++ c :: l2 ->
  last_focused self = Some (ref c) ->
  index (ref c) l1 = None ->
  let self' := snd (action_add_cell_after self) in
  children self' = l1 ++ c :: CellWidget (next_id self) (new_cell CodeCell) :: l2 /\
  last_focused self' = Some (ref c) /\
  next_id self' = S (next_id self).
Proof.
  intros E F N. unfold action_add_cell_after, bind. rewrite add_cell_unfold.
  cbv zeta. rewrite F. unfold mount. rewrite E, (index_app_here c l1 l2 N).
  simpl. rewrite insert_at_S_length. repeat split. exact F.
Qed.

(** X16: with the focus on a cell, pressing [a] again and again puts every new
    cell right behind the focused cell, in front of the ones added before:
    the new cells follow the focused cell newest first, and the focus stays
    where it was. *)
Theorem repeated_add_after (n : nat) (fs : filesystem) (self : Notebook)
        (l1 l2 : list cell_widget) (c : cell_widget) :
  children self = l1 ++ c :: l2 ->
  last_focused self = Some (ref c) ->
  index (ref c) l1 = None ->
  let self' := snd (run_events (repeat KeyA n) (fs, self)) in
  children self' = l1 ++ c :: rev (fresh_code_cells (next_id self) n) ++ l2 /\
  last_focused self' = Some (ref c).
Proof.
  revert self l2. induction n as [|n IH]; intros self l2 E F N; simpl.
  - now split.
  - destruct (add_after_focus self l1 l2 c E F N) as (E1 & F1 & I1).
    unfold run_events in *. cbn [repeat fold_left handle].
    change (fold_left (fun w e => handle e w) (repeat KeyA n)
              (fs, snd (action_add_cell_after self)))
      with (run_events (repeat KeyA n) (fs, snd (action_add_cell_after self))).
    unfold run_events.
    destruct (IH (snd (action_add_cell_after self))
                 (CellWidget (next_id self) (new_cell CodeCell) :: l2) E1 F1 N)
      as [E2 F2].
    split; [|exact F2]. rewrite E2, I1.
    unfold fresh_code_cells. simpl. rewrite <- app_assoc. reflexivity.
Qed.

End RepeatedAdd.

(** ** The properties on the stub environment *)

Import Stub.

Lemma add_cell_inserts_at_focus_witness :
  focus_in_sequence two_cells /\
  exists self',
    add_cell MarkdownCell after two_cells
      = (Ok (Widget (Cell MarkdownCell) 2), self') /\
    last_focused self' = Some (Widget (Cell CodeCell) 0) /\
    children self' = [CellWidget 0 (Code "1+1" None []); CellWidget 2 (Markdown "");
                      CellWidget 1 (Markdown "# Title")].
Proof.
  split; [simpl; discriminate|].
  destruct (add_cell_inserts_at_focus MarkdownCell after two_cells) as (self' & E & F & _);
    [simpl; discriminate|].
  exists self'. split; [exact E|]. split; [exact F|].
  vm_compute in E. injection E as <-. reflexivity.
Defined.

(** C3 fails on [notes.txt]: validation marks the notebook invalid, and
    [add_cell] then returns the new cell instead of raising
    [InvalidDocumentError]. *)
Lemma add_cell_on_invalid_notebook :
  let self := snd (load_notebook disk (__init__ "notes.txt")) in
  valid_notebook self = false /\
  fst (add_cell CodeCell after self) <> Raise InvalidDocumentError /\
  fst (add_cell CodeCell after self) = Ok (Widget (Cell CodeCell) 0) /\
  children (snd (add_cell CodeCell after self)) = [CellWidget 0 (Code "" None [])].
Proof.
  vm_compute. repeat split. discriminate.
Qed.

Lemma invalid_notebook_hidden_not_guarded_witness :
  valid_notebook (snd (load_notebook disk (__init__ "notes.txt"))) = false /\
  display (snd (load_notebook disk (__init__ "notes.txt"))) = hidden.
Proof.
  split; [reflexivity|].
  apply (invalid_notebook_hidden_not_guarded disk "notes.txt" CodeCell after).
  reflexivity.
Defined.



(** C4 fails on [raw.ipynb] and on [broken.ipynb]: the first load returns
    with the two code cells mounted and the [raw] record dropped; the second
    raises [KeyError] with the first cell mounted; both notebooks stay
    valid. *)
Lemma load_notebook_commits_partial_loads :
  (fst (load_notebook disk (__init__ "raw.ipynb")) = Ok tt /\
   children (snd (load_notebook disk (__init__ "raw.ipynb")))
     = [CellWidget 0 (Code "1+1" None []); CellWidget 1 (Code "2+2" None [])] /\
   valid_notebook (snd (load_notebook disk (__init__ "raw.ipynb"))) = true) /\
  (fst (load_notebook disk (__init__ "broken.ipynb")) = Raise (KeyError "cell_type") /\
   children (snd (load_notebook disk (__init__ "broken.ipynb")))
     = [CellWidget 0 (Code "1+1" None [])] /\
   valid_notebook (snd (load_notebook disk (__init__ "broken.ipynb"))) = true).
Proof. vm_compute. repeat split. Qed.

Lemma load_notebook_malformed_content_witness :
  String.eqb "raw.ipynb" "new_empty_terminal_notebook" = false /\
  disk "raw.ipynb" = Some (File (Some with_raw_cell)) /\
  snd (splitext "raw.ipynb") = ".ipynb" /\
  valid_notebook (snd (load_notebook disk (__init__ "raw.ipynb"))) = true.
Proof.
  split; [reflexivity|]. split; [reflexivity|]. split; [reflexivity|].
  apply (load_notebook_malformed_content disk "raw.ipynb" with_raw_cell); reflexivity.
Defined.

Lemma load_save_load_witness :
  load_notebook disk (__init__ "nb.ipynb") = (Ok tt, loaded) /\
  valid_notebook loaded = true /\
  exists fs',
    action_save disk loaded = Ok fs' /\
    fs' "nb.ipynb" = Some (File (Some (to_nb loaded))) /\
    exists self',
      load_notebook fs' (__init__ "nb.ipynb") = (Ok tt, self') /\
      map cw_state (children self')
        = [Code "1+1" None []; Markdown "# Title"; Code "2+2" None []].
Proof.
  split; [reflexivity|]. split; [reflexivity|].
  destruct (action_save disk loaded) as [fs'|e] eqn:S;
    [|vm_compute in S; discriminate S].
  exists fs'. split; [reflexivity|].
  destruct (load_save_load disk fs' "nb.ipynb" loaded eq_refl eq_refl S)
    as [[W|W] R]; [discriminate W|].
  split; [exact W|].
  destruct (R fs' eq_refl) as (self' & L & _ & C).
  exists self'. split; [exact L|exact C].
Defined.

(** C5 fails on two code cells of which the first fails: the handler raises
    the failure of the first cell, and the second cell, a code cell, has not
    been run and has no output. *)
Lemma run_all_aborts_on_failure :
  map cw_id (filter is_code (children failing_first)) = [0; 1] /\
  fst (on_button_pressed "run-all" failing_first) = Raise (KernelError "boom") /\
  ran (run_children (notebook_kernel failing_first) (children failing_first)) = [0] /\
  children (snd (on_button_pressed "run-all" failing_first))
    = [CellWidget 0 (Code "boom" None []); CellWidget 1 (Code "2+2" None [])].
Proof. vm_compute. repeat split. Qed.

(** The format version of [nb.ipynb] is 3.0; the record built after loading
    it says 4. *)
Example saved_format_ignores_file :
  getitem sample "nbformat" = Ok (JInt 3) /\
  getitem (to_nb (snd (load_notebook disk (__init__ "nb.ipynb")))) "nbformat" = Ok (JInt 4).
Proof. split; reflexivity. Qed.

Lemma invalid_notebook_stays_invalid_witness :
  valid_notebook (snd (load_notebook disk (__init__ "notes.txt"))) = false /\
  valid_notebook
    (snd (run_events [KeyA; Mount; ButtonPressed "run-all"]
            (disk, snd (load_notebook disk (__init__ "notes.txt"))))) = false.
Proof.
  split; [reflexivity|]. apply invalid_notebook_stays_invalid. reflexivity.
Defined.

Lemma only_own_path_is_written_witness :
  ("nb.ipynb" = "new_empty_terminal_notebook" \/ "notes.txt" <> "nb.ipynb") /\
  fst (run_events [Mount; KeyA; CtrlS] (disk, __init__ "nb.ipynb")) "notes.txt"
    = disk "notes.txt".
Proof.
  assert (Q : "nb.ipynb" = "new_empty_terminal_notebook" \/ "notes.txt" <> "nb.ipynb")
    by (right; discriminate).
  split; [exact Q|]. apply only_own_path_is_written. exact Q.
Defined.

Lemma add_then_delete_restores_witness :
  last_focused loaded = None /\
  Forall (fun c => cw_id c < next_id loaded) (children loaded) /\
  children (snd (action_delete_cell (snd (add_cell CodeCell before loaded))))
    = children loaded.
Proof.
  assert (F : Forall (fun c => cw_id c < next_id loaded) (children loaded))
    by (repeat constructor).
  split; [reflexivity|]. split; [exact F|].
  apply (add_then_delete_restores CodeCell before loaded eq_refl F).
Defined.

Lemma action_delete_cell_removes_one_witness :
  children focus_on_second
    = [CellWidget 0 (Code "1+1" None [])] ++
      CellWidget 1 (Markdown "# Title") :: [CellWidget 2 (Code "2+2" None [])] /\
  last_focused focus_on_second = Some (ref (CellWidget 1 (Markdown "# Title"))) /\
  NoDup (map cw_id (children focus_on_second)) /\
  children (snd (action_delete_cell focus_on_second))
    = [CellWidget 0 (Code "1+1" None [])] ++ [CellWidget 2 (Code "2+2" None [])].
Proof.
  assert (N : NoDup (map cw_id (children focus_on_second))).
  { repeat constructor; simpl; intuition discriminate. }
  split; [reflexivity|]. split; [reflexivity|]. split; [exact N|].
  apply (action_delete_cell_removes_one focus_on_second
           [CellWidget 0 (Code "1+1" None [])] [CellWidget 2 (Code "2+2" None [])]
           (CellWidget 1 (Markdown "# Title")));
    [reflexivity|reflexivity|exact N].
Defined.

Lemma load_notebook_mounts_known_records_witness :
  getitem with_raw_cell "cells"
    = Ok (JList [code_record "1+1";
                 JDict [("cell_type", JStr "raw"); ("source", JStr "x")];
                 code_record "2+2"]) /\
  fst (load_notebook disk (__init__ "raw.ipynb")) = Ok tt /\
  record_kinds [code_record "1+1";
                JDict [("cell_type", JStr "raw"); ("source", JStr "x")];
                code_record "2+2"] = [CodeCell; CodeCell] /\
  kinds (snd (load_notebook disk (__init__ "raw.ipynb")))
    = record_kinds [code_record "1+1";
                    JDict [("cell_type", JStr "raw"); ("source", JStr "x")];
                    code_record "2+2"].
Proof.
  split; [reflexivity|]. split; [reflexivity|]. split; [reflexivity|].
  apply (load_notebook_mounts_known_records disk "raw.ipynb" with_raw_cell);
    reflexivity.
Defined.

Lemma load_notebook_raises_only_after_guards_witness :
  fst (load_notebook disk (__init__ "broken.ipynb")) = Raise (KeyError "cell_type") /\
  valid_notebook (snd (load_notebook disk (__init__ "broken.ipynb"))) = true /\
  exists_ disk "broken.ipynb" = true.
Proof.
  split; [reflexivity|].
  destruct (load_notebook_raises_only_after_guards disk "broken.ipynb"
              (KeyError "cell_type")) as (V & _ & _ & X & _); [reflexivity|].
  split; [exact V|exact X].
Defined.

Lemma run_all_threads_the_kernel_witness :
  fst (on_button_pressed "run-all" loaded) = Ok tt /\
  notebook_kernel (snd (on_button_pressed "run-all" loaded)) = 2%Z.
Proof.
  split; [reflexivity|].
  rewrite (run_all_threads_the_kernel loaded); reflexivity.
Defined.

Lemma focus_stays_in_sequence_witness :
  run_cell_keeps_kind /\
  events_in_tree [Mount; DescendantFocus (Widget (Cell CodeCell) 0); KeyA;
                  DescendantFocus (Widget TextArea 1); CtrlD; KeyB]
                 (disk, __init__ "nb.ipynb") /\
  focus_in_sequence
    (snd (run_events [Mount; DescendantFocus (Widget (Cell CodeCell) 0); KeyA;
                      DescendantFocus (Widget TextArea 1); CtrlD; KeyB]
            (disk, __init__ "nb.ipynb"))).
Proof.
  assert (K : run_cell_keeps_kind).
  { intros k [source count outputs|source]; simpl; [|reflexivity].
    destruct (String.eqb source "boom"); reflexivity. }
  assert (T : events_in_tree [Mount; DescendantFocus (Widget (Cell CodeCell) 0); KeyA;
                              DescendantFocus (Widget TextArea 1); CtrlD; KeyB]
                             (disk, __init__ "nb.ipynb")).
  { cbn [events_in_tree]. repeat split.
    - vm_compute. discriminate.
    - intros p g Hp Hg. vm_compute in Hp. injection Hp as <-.
      vm_compute in Hg. injection Hg as <-. vm_compute. discriminate. }
  split; [exact K|]. split; [exact T|].
  apply (focus_stays_in_sequence K disk "nb.ipynb" _ T).
Defined.

Lemma repeated_add_after_witness :
  children two_cells = [] ++ CellWidget 0 (Code "1+1" None [])
                          :: [CellWidget 1 (Markdown "# Title")] /\
  last_focused two_cells = Some (ref (CellWidget 0 (Code "1+1" None []))) /\
  children (snd (run_events (repeat KeyA 2) (disk, two_cells)))
    = [CellWidget 0 (Code "1+1" None []); CellWidget 3 (Code "" None []);
       CellWidget 2 (Code "" None []); CellWidget 1 (Markdown "# Title")].
Proof.
  split; [reflexivity|]. split; [reflexivity|].
  apply (repeated_add_after 2 disk two_cells [] [CellWidget 1 (Markdown "# Title")]
           (CellWidget 0 (Code "1+1" None []))); reflexivity.
Defined.

Lemma saved_file_format_version_witness :
  "nb.ipynb" <> "new_empty_terminal_notebook" /\
  getitem sample "nbformat" = Ok (JInt 3) /\
  exists fs' nb,
    action_save (fst (run_events [Mount; KeyA] (disk, __init__ "nb.ipynb")))
                (snd (run_events [Mount; KeyA] (disk, __init__ "nb.ipynb"))) = Ok fs' /\
    fs' "nb.ipynb" = Some (File (Some nb)) /\
    getitem nb "nbformat" = Ok (JInt 4) /\
    getitem nb "nbformat_minor" = Ok (JInt 5).
Proof.
  split; [discriminate|]. split; [reflexivity|].
  destruct (action_save (fst (run_events [Mount; KeyA] (disk, __init__ "nb.ipynb")))
                        (snd (run_events [Mount; KeyA] (disk, __init__ "nb.ipynb"))))
    as [fs'|e] eqn:S; [|vm_compute in S; discriminate S].
  destruct (saved_file_format_version disk fs' "nb.ipynb" [Mount; KeyA])
    as (nb & W & _ & F1 & F2); [discriminate|exact S|].
  exists fs', nb. split; [reflexivity|]. split; [exact W|]. split; [exact F1|exact F2].
Defined.

(** C2 fails on [dir.ipynb]: the path is a directory and no file, it is not
    the name of a new notebook, and the notebook stays valid; the load then
    raises from [open]. *)
Lemma directory_passes_validation :
  "dir.ipynb" <> "new_empty_terminal_notebook" /\
  isfile disk "dir.ipynb" = false /\
  valid_notebook (snd (load_notebook disk (__init__ "dir.ipynb"))) = true /\
  fst (load_notebook disk (__init__ "dir.ipynb")) = Raise IsADirectoryError.
Proof. split; [discriminate|]. repeat split. Qed.

